(** * Crypto SIP calculator: the projection engine and the CAGR estimator

    A shallow embedding of [src/main.py]: the two handlers with numeric
    content, [projection] (lines 162-211) and [get_cagr] (lines 123-159),
    and the request type [ProjectionRequest] (lines 26-31).

    Numbers.  Python's [float] is IEEE binary64.  The handlers are embedded
    twice:

    - over the real numbers [R], in exact arithmetic: no product or sum is
      rounded, no power overflows.  This reading serves the statements about
      branches and guards, and the algebraic identities, which it labels as
      holding in exact arithmetic;
    - over the kernel's binary64 floats ([Binary64]): [+], [-], [*], [/] and
      the comparisons are Python's bit for bit, [round(x)] and [int(x)] are
      computed on the exact value of the float, and the two built-ins with
      no definition to embed, [**] and [round(x, 2)], are arguments of the
      handlers.  What is proved there holds for every such pair of
      built-ins, so for CPython's.

    The accumulation loop of the periodic mode only adds and multiplies; it
    is written once over an interface of float operations ([PyFloatOps])
    and run over [R] and over binary64.

    Exceptions are values of [result]; the handlers are written in the
    error monad.

    The other handlers follow: [get_coins] and [get_fx_rates] with the
    module-level cache passed in and out ([Market]), and [test_database]
    ([Diagnostics]). *)

From Stdlib Require Import ZArith List String Ascii Bool Lia.
From Stdlib Require Import Reals Lra.
From Stdlib Require Import Floats.
From Stdlib Require Import Sorting.Sorted.
Import ListNotations.

Local Open Scope Z_scope.

(** ** Exceptions and the error monad *)

Inductive exn : Type :=
| ZeroDivisionError   (* x / 0, 0.0 ** negative *)
| IndexError          (* list index out of range *)
| TypeError.          (* a complex number where a float is required *)

Inductive result (A : Type) : Type :=
| Ok (a : A)
| Raise (e : exn).

Arguments Ok {A} a.
Arguments Raise {A} e.

Definition bind {A B : Type} (c : result A) (k : A -> result B) : result B :=
  match c with
  | Ok a => k a
  | Raise e => Raise e
  end.

Declare Scope py_scope.
Delimit Scope py_scope with py.
Notation "x <- c ;; k" := (bind c (fun x => k))
  (at level 61, c at next level, right associativity) : py_scope.
Notation "' p <- c ;; k" := (bind c (fun x => let p := x in k))
  (at level 61, p pattern, c at next level, right associativity) : py_scope.

Local Open Scope py_scope.

(** [[f(x) for x in xs]] with a fallible [f], left to right. *)
Fixpoint mapM {A B : Type} (f : A -> result B) (xs : list A) : result (list B) :=
  match xs with
  | [] => Ok []
  | x :: rest =>
      y <- f x ;;
      ys <- mapM f rest ;;
      Ok (y :: ys)
  end.

(** [range(lo, hi)]. *)
Definition range (lo hi : Z) : list Z :=
  map (fun i => lo + Z.of_nat i) (seq 0 (Z.to_nat (hi - lo))).

(** [range(0, stop, step)] for a positive [step]: 0, step, 2*step, ... below
    [stop]. *)
Definition range_step (stop step : Z) : list Z :=
  map (fun i => step * Z.of_nat i) (seq 0 (Z.to_nat ((stop + step - 1) / step))).

(** ** Python's numeric built-ins over the reals *)

Local Open Scope R_scope.

(** [round(x)]: the nearest integer, a tie going to the even neighbour. *)
Definition py_round (x : R) : Z :=
  let f := Zfloor x in
  let d := x - IZR f in
  if Rlt_dec d (1 / 2) then f
  else if Rlt_dec (1 / 2) d then (f + 1)%Z
  else if Z.even f then f else (f + 1)%Z.

(** [int(x)]: truncation toward zero. *)
Definition py_int (x : R) : Z :=
  if Rle_dec 0 x then Zfloor x else Zceil x.

(** [round(x, ndigits)]: [x] rounded to [ndigits] decimals, ties to even. *)
Definition py_round_ndigits (x : R) (ndigits : nat) : R :=
  IZR (py_round (x * 10 ^ ndigits)) / 10 ^ ndigits.

(** [x / y] on floats. *)
Definition py_div (x y : R) : result R :=
  if Req_dec_T y 0 then Raise ZeroDivisionError else Ok (x / y).

(** The value of a power: a float, or a complex number (whose components are
    not followed: no operation of the program takes one apart). *)
Inductive number : Type :=
| Float (x : R)
| Complex.

Definition is_integer (y : R) : bool :=
  if Req_dec_T y (IZR (Zfloor y)) then true else false.

(** [x ** y] on floats.  A positive base gives [exp (y * ln x)]; a zero base
    raises for a negative exponent; a negative base gives a float for an
    integral exponent and a complex number otherwise.  In exact arithmetic
    no power overflows: [OverflowError] belongs to the binary64 embedding. *)
Definition py_pow (x y : R) : result number :=
  if Rlt_dec 0 x then Ok (Float (Rpower x y))
  else if Req_dec_T x 0 then
    if Rlt_dec y 0 then Raise ZeroDivisionError
    else if Req_dec_T y 0 then Ok (Float 1) else Ok (Float 0)
  else if is_integer y then Ok (Float (powerRZ x (Zfloor y)))
  else Ok Complex.

(** [v - 1]: complex arithmetic stays complex. *)
Definition number_sub (v : number) (c : R) : number :=
  match v with
  | Float x => Float (x - c)
  | Complex => Complex
  end.

(** A float is required: a complex number is rejected.  Python carries a
    complex value on until [round] or a float field of a response model
    refuses it; the embedding raises where the value is bound.  No request
    within the field constraints produces one. *)
Definition as_float (v : number) : result R :=
  match v with
  | Float x => Ok x
  | Complex => Raise TypeError
  end.

(** ** The response's points and the float operations of the loop *)

(** [class ProjectionPoint(BaseModel)], lines 34-37, over the float type. *)
Record ProjectionPoint (F : Type) : Type := {
  year : Z;
  invested : F;
  value : F
}.

Arguments Build_ProjectionPoint {F} _ _ _.
Arguments year {F} _.
Arguments invested {F} _.
Arguments value {F} _.

(** What the accumulation loop asks of its floats: the conversion of an
    [int] (the literals [0.0] and [1]), [+] and [*]. *)
Class PyFloatOps (F : Type) : Type := {
  of_int : Z -> F;
  fadd : F -> F -> F;
  fmul : F -> F -> F
}.

(** Exact arithmetic. *)
#[export] Instance exact_ops : PyFloatOps R := {|
  of_int := IZR;
  fadd := Rplus;
  fmul := Rmult
|}.

(** [float(z)] for an [int] within 63 bits. *)
Definition float_of_int (z : Z) : float :=
  if (z <? 0)%Z then PrimFloat.opp (PrimFloat.of_uint63 (Uint63.of_Z (- z)))
  else PrimFloat.of_uint63 (Uint63.of_Z z).

(** IEEE binary64, as CPython computes. *)
#[export] Instance binary64_ops : PyFloatOps float := {|
  of_int := float_of_int;
  fadd := PrimFloat.add;
  fmul := PrimFloat.mul
|}.

Section SipLoop.

Context {F : Type} `{PyFloatOps F}.

(** The state of the loop at lines 196-200: [invested], [value], [series]. *)
Definition sip_state : Type := (F * F * list (ProjectionPoint F))%type.

(** One turn of the loop body, for month [m]. *)
Definition sip_step (amount r_month : F) (st : sip_state) (m : Z) : sip_state :=
  let '(invested, value, series) := st in
  let invested := fadd invested amount in
  let value := fadd (fmul value (fadd (of_int 1) r_month)) amount in
  let series :=
    if (m mod 12 =? 0)%Z
    then series ++ [Build_ProjectionPoint (m / 12)%Z invested value]
    else series in
  (invested, value, series).

(** [for m in range(1, months_total + 1): ...] from [invested = 0.0],
    [value = 0.0] and the empty series. *)
Definition sip_loop (amount r_month : F) (months_total : Z) : sip_state :=
  fold_left (sip_step amount r_month) (range 1 (months_total + 1))
    (of_int 0, of_int 0, []).

(** The recurrence as the specification writes it:
    [invested_m = invested_{m-1} + amount],
    [value_m = value_{m-1} * (1 + r_month) + amount], from [(0, 0)]. *)
Fixpoint sip_recurrence (amount r_month : F) (m : nat) : F * F :=
  match m with
  | O => (of_int 0, of_int 0)
  | S k =>
      let '(invested, value) := sip_recurrence amount r_month k in
      (fadd invested amount, fadd (fmul value (fadd (of_int 1) r_month)) amount)
  end.

(** The point emitted at the close of year [k]. *)
Definition year_end_point (amount r_month : F) (k : nat) : ProjectionPoint F :=
  let '(invested, value) := sip_recurrence amount r_month (12 * k) in
  Build_ProjectionPoint (Z.of_nat k) invested value.

(** [amount + ... + amount], [m] times, left to right from [0.0]. *)
Fixpoint repeated_sum (amount : F) (m : nat) : F :=
  match m with
  | O => of_int 0
  | S k => fadd (repeated_sum amount k) amount
  end.

End SipLoop.

(** ** The projection endpoint (lines 26-47, 162-211) *)

(** [type: Literal["sip", "lump"]]. *)
Inductive contribution : Type := sip | lump.

(** [frequency: Literal["monthly", "yearly"]]. *)
Inductive compounding : Type := monthly | yearly.

(** [class ProjectionRequest(BaseModel)]; a field [f] is read as [req.f]. *)
Record ProjectionRequest : Type := {
  req_type : contribution;
  req_amount : R;
  req_years : R;
  req_cagr : R;
  req_frequency : compounding
}.

(** The constraints of the fields: [amount: gt=0], [years: gt=0, le=70],
    [cagr: ge=-0.99, le=10].  The handler only ever receives a request that
    satisfies them. *)
Definition ProjectionRequest_valid (req : ProjectionRequest) : Prop :=
  0 < req_amount req /\
  0 < req_years req <= 70 /\
  -0.99 <= req_cagr req <= 10.

(** [class ProjectionResponse(BaseModel)]. *)
Record ProjectionResponse : Type := {
  total_invested : R;
  final_value : R;
  profit : R;
  cagr : R;
  years : R;
  series : list (ProjectionPoint R)
}.

(** [x ** y] where the program goes on with a float. *)
Definition float_pow (x y : R) : result R :=
  v <- py_pow x y ;; as_float v.

(** [(1 + rate_annual) ** (1 / 12) - 1], the expression of lines 167 and 195. *)
Definition rate_monthly (rate_annual : R) : result number :=
  p <- py_pow (1 + rate_annual) (1 / 12) ;;
  Ok (number_sub p 1).

(** [r], lines 166-172. *)
Definition period_rate (req : ProjectionRequest) : result R :=
  match req_frequency req with
  | monthly => v <- rate_monthly (req_cagr req) ;; as_float v
  | yearly => Ok (req_cagr req)
  end.

(** [n], lines 168 and 173; [years * 12] is the exact product here and the
    rounded float product in the binary64 embedding. *)
Definition n_periods (req : ProjectionRequest) : Z :=
  match req_frequency req with
  | monthly => py_round (req_years req * 12)
  | yearly => py_round (req_years req)
  end.

(** [label_div], lines 170 and 175. *)
Definition label_div (req : ProjectionRequest) : Z :=
  match req_frequency req with
  | monthly => 12
  | yearly => 1
  end.

(** [months_total], line 194. *)
Definition months_total (req : ProjectionRequest) : Z :=
  match req_frequency req with
  | monthly => n_periods req
  | yearly => (n_periods req * 12)%Z
  end.

(** [r_month], line 195, given [r]. *)
Definition r_month (req : ProjectionRequest) (r : R) : result R :=
  match req_frequency req with
  | monthly => Ok r
  | yearly => v <- rate_monthly (req_cagr req) ;; as_float v
  end.

(** Lines 163-200: [invested], [value] and [series] as they stand when the
    response is built, at full precision. *)
Definition projection_totals (req : ProjectionRequest) : result (@sip_state R) :=
  let years := req_years req in
  r <- period_rate req ;;
  let n := n_periods req in
  let label_div := label_div req in
  match req_type req with
  | lump =>
      let invested := req_amount req in
      growth <- float_pow (1 + r) (IZR n) ;;
      let value := invested * growth in
      series <-
        mapM (fun y =>
                let periods := (y * label_div)%Z in
                g <- float_pow (1 + r) (IZR periods) ;;
                Ok (Build_ProjectionPoint y invested (invested * g)))
             (range 1 (py_round years + 1)) ;;
      Ok (invested, value, series)
  | sip =>
      let amount := req_amount req in
      let months_total := months_total req in
      r_month <- r_month req r ;;
      Ok (sip_loop amount r_month months_total)
  end.

(** Lines 202-211: the profit and the rounding at the response boundary. *)
Definition projection (req : ProjectionRequest) : result ProjectionResponse :=
  '(invested, value, series) <- projection_totals req ;;
  let profit := value - invested in
  Ok {| total_invested := py_round_ndigits invested 2;
        final_value := py_round_ndigits value 2;
        profit := py_round_ndigits profit 2;
        cagr := req_cagr req;
        years := req_years req;
        series := series |}.

(** The monthly rate equivalent to the annual rate [a]. *)
Definition monthly_rate_of (a : R) : R := Rpower (1 + a) (1 / 12) - 1.

(** The point of year [y] of a lump sum growing at [r] per period, [k]
    periods a year. *)
Definition lump_point (amount r : R) (k y : Z) : ProjectionPoint R :=
  Build_ProjectionPoint y amount (amount * Rpower (1 + r) (IZR (y * k))).

Definition rate_of (req : ProjectionRequest) : R :=
  match req_frequency req with
  | monthly => monthly_rate_of (req_cagr req)
  | yearly => req_cagr req
  end.

(** ** The CAGR endpoint (lines 123-159) *)

(** [xs[i]]: a negative index counts from the end. *)
Definition py_item {A : Type} (xs : list A) (i : Z) : result A :=
  let len := Z.of_nat (List.length xs) in
  let j := if (i <? 0)%Z then (len + i)%Z else i in
  if ((j <? 0) || (len <=? j))%Z then Raise IndexError
  else match nth_error xs (Z.to_nat j) with
       | Some x => Ok x
       | None => Raise IndexError
       end.

(** What the handler reads of the provider's reply [r]: [r.status_code],
    [r.text] and [r.json().get("prices", [])], a list of
    [[timestamp, price]] pairs. *)
Record Response : Type := {
  status_code : Z;
  text : string;
  prices : list (R * R)
}.

(** The two shapes of the returned dictionary: with ["cagr": None] and an
    ["error"], or with the estimate and its series of
    [{"year": .., "price": ..}]. *)
Inductive CagrResult : Type :=
| CagrUnavailable (coin_id : string) (years : R) (currency : string)
    (error : string)
| CagrEstimate (coin_id : string) (years : R) (currency : string)
    (cagr : number) (start_price end_price : R) (series : list (Z * R)).

(** The ["cagr"] entry: [None] is Python's [None]. *)
Definition result_cagr (res : CagrResult) : option number :=
  match res with
  | CagrUnavailable _ _ _ _ => None
  | CagrEstimate _ _ _ c _ _ _ => Some c
  end.

(** The ["error"] entry, when the dictionary has one. *)
Definition result_error (res : CagrResult) : option string :=
  match res with
  | CagrUnavailable _ _ _ e => Some e
  | CagrEstimate _ _ _ _ _ _ _ => None
  end.

(** The ["series"] entry, when the dictionary has one. *)
Definition result_series (res : CagrResult) : option (list (Z * R)) :=
  match res with
  | CagrUnavailable _ _ _ _ => None
  | CagrEstimate _ _ _ _ _ _ s => Some s
  end.

(** The handler.  [market_chart coin_id currency days] is the reply of
    [requests.get] to the request of lines 126-130. *)
Definition get_cagr (market_chart : string -> string -> Z -> Response)
    (coin_id : string) (years : R) (currency : string) : result CagrResult :=
  let days := py_int (years * 365) in
  let r := market_chart coin_id currency days in
  if negb (status_code r =? 200)%Z then
    Ok (CagrUnavailable coin_id years currency (text r))
  else
    let prices := prices r in
    let len := Z.of_nat (List.length prices) in
    if (len <? 2)%Z then
      Ok (CagrUnavailable coin_id years currency "Insufficient data")
    else
      first <- py_item prices 0 ;;
      let start_price := snd first in
      final <- py_item prices (-1) ;;
      let end_price := snd final in
      ratio <- py_div end_price start_price ;;
      exponent <- py_div 1 years ;;
      p <- py_pow ratio exponent ;;
      let annual_cagr := number_sub p 1 in
      series <-
        mapM (fun i =>
                let idx_year := Z.min i (len - 1) in
                sample <- py_item prices idx_year ;;
                let year_number := py_round (IZR idx_year / 365) in
                Ok (year_number, snd sample))
             (range_step len 365) ;;
      let series := series ++ [(py_int years, end_price)] in
      Ok (CagrEstimate coin_id years currency annual_cagr
            start_price end_price series).

(** The point the loop of lines 144-148 emits for index [i]. *)
Definition strided_point (prices : list (R * R)) (i : Z) : Z * R :=
  (py_round (IZR i / 365), snd (nth (Z.to_nat i) prices (0, 0))).

(** ** Sample inputs *)

(** A provider that answers every request with [r]. *)
Definition fixed_reply (r : Response) : string -> string -> Z -> Response :=
  fun _ _ _ => r.

(** One daily sample only. *)
Definition one_sample_reply : Response :=
  {| status_code := 200; text := "OK"; prices := [(0, 100)] |}.

(** Two samples, the first with a price of zero. *)
Definition zero_start_reply : Response :=
  {| status_code := 200; text := "OK"; prices := [(0, 0); (86400000, 5)] |}.

(** Two samples, the price doubling from 100 to 200. *)
Definition doubling_reply : Response :=
  {| status_code := 200; text := "OK"; prices := [(0, 100); (86400000, 200)] |}.

(** The request [req] with its [frequency] field set to [f]. *)
Definition with_frequency (req : ProjectionRequest) (f : compounding) : ProjectionRequest :=
  {| req_type := req_type req;
     req_amount := req_amount req;
     req_years := req_years req;
     req_cagr := req_cagr req;
     req_frequency := f |}.

(** The point of year [y] of a lump sum growing once a year at the annual
    rate [a]: [amount * (1 + a) ^ y]. *)
Definition annual_point (amount a : R) (y : Z) : ProjectionPoint R :=
  Build_ProjectionPoint y amount (amount * (1 + a) ^ Z.to_nat y).

(** Scenario A of the specification: 1000 for 5 years at 10%, monthly. *)
Definition scenario_a : ProjectionRequest :=
  {| req_type := lump; req_amount := 1000; req_years := 5; req_cagr := 0.10;
     req_frequency := monthly |}.

(** Scenario B of the specification: 100 a month for 3 years at 8%. *)
Definition scenario_b : ProjectionRequest :=
  {| req_type := sip; req_amount := 100; req_years := 3; req_cagr := 0.08;
     req_frequency := monthly |}.


(** A lump sum of 1000 for 0.4 years at 10%, compounded yearly. *)
Definition short_lump : ProjectionRequest :=
  {| req_type := lump; req_amount := 1000; req_years := 0.4; req_cagr := 0.10;
     req_frequency := yearly |}.

(** 100 a month for 0.01 years at 8%. *)
Definition short_sip : ProjectionRequest :=
  {| req_type := sip; req_amount := 100; req_years := 0.01; req_cagr := 0.08;
     req_frequency := monthly |}.

(** 100 a month for 1.4 years at 8%, with the yearly frequency. *)
Definition yearly_sip : ProjectionRequest :=
  {| req_type := sip; req_amount := 100; req_years := 1.4; req_cagr := 0.08;
     req_frequency := yearly |}.

(** The months the periodic mode iterates for a request within the
    constraints, as a natural number. *)
Definition sip_months (req : ProjectionRequest) : nat :=
  match req_frequency req with
  | monthly => Z.to_nat (py_round (req_years req * 12))
  | yearly => (Z.to_nat (py_round (req_years req)) * 12)%nat
  end.

(** Binary64 constants: [0.1], [100.0], and the monthly rate CPython
    computes for 8% a year, [(1 + 0.08) ** (1 / 12) - 1]. *)
Definition tenth : float := 0x1.999999999999ap-4%float.

Definition hundred : float := 0x1.9p+6%float.

Definition r_month_8_percent : float := 0x1.a5a91ce768ep-8%float.

(** A lump sum of 1.004 for one year at 100%, compounded yearly. *)
Definition cent_lump : ProjectionRequest :=
  {| req_type := lump; req_amount := 1.004; req_years := 1; req_cagr := 1;
     req_frequency := yearly |}.

(** A lump sum of 1 for one year at 12.345%, compounded yearly. *)
Definition fine_lump : ProjectionRequest :=
  {| req_type := lump; req_amount := 1; req_years := 1; req_cagr := 0.12345;
     req_frequency := yearly |}.

(** The series of a request within the constraints, written with the
    unrounded growth factors and recurrence states. *)
Definition full_precision_series (req : ProjectionRequest) : list (ProjectionPoint R) :=
  match req_type req with
  | lump =>
      map (lump_point (req_amount req) (rate_of req) (label_div req))
          (range 1 (py_round (req_years req) + 1))
  | sip =>
      map (year_end_point (req_amount req) (monthly_rate_of (req_cagr req)))
          (seq 1 (sip_months req / 12))
  end.

(** ** Notions used to state properties of the projection *)

(** The points' values never decrease along the series. *)
Definition values_nondecreasing (points : list (ProjectionPoint R)) : Prop :=
  StronglySorted (fun p q => value p <= value q) points.

(** A flat scenario: 250 a month for 2 years at 0%, yearly frequency. *)
Definition flat_sip : ProjectionRequest :=
  {| req_type := sip; req_amount := 250; req_years := 2; req_cagr := 0;
     req_frequency := yearly |}.

(** 100 a month for 2.5 years at 8%, monthly frequency: 30 months. *)
Definition partial_year_sip : ProjectionRequest :=
  {| req_type := sip; req_amount := 100; req_years := 2.5; req_cagr := 0.08;
     req_frequency := monthly |}.

(** ** Further sample replies *)

(** A reply refused by the provider (rate limit). *)
Definition refused_reply : Response :=
  {| status_code := 429; text := "Too Many Requests"; prices := [] |}.

(** Two samples, the price falling from 100 to 0. *)
Definition crash_reply : Response :=
  {| status_code := 200; text := "OK"; prices := [(0, 100); (86400000, 0)] |}.

(** The price at list index [i] (0 when there is none). *)
Definition price_at (prices : list (R * R)) (i : nat) : R :=
  snd (nth i prices (0, 0)).

(** The number of strided points for [len] samples: the indices 0, 365,
    730, ... below [len]. *)
Definition strided_count (len : nat) : nat := ((len + 364) / 365)%nat.

(** [n] daily samples at the price 100. *)
Definition flat_prices (n : nat) : list (R * R) :=
  map (fun i => (IZR (Z.of_nat i), 100)) (seq 0 n).

(** A successful reply with 400 daily samples. *)
Definition long_reply : Response :=
  {| status_code := 200; text := "OK"; prices := flat_prices 400 |}.

(** The lump-sum request for [amount] over [years] at the annual rate [g]. *)
Definition lump_at (amount years g : R) (f : compounding) : ProjectionRequest :=
  {| req_type := lump; req_amount := amount; req_years := years; req_cagr := g;
     req_frequency := f |}.

(** * The cached endpoints: the coin list and the exchange rates
      (lines 19-23, 54-120)

    [get_coins] and [get_fx_rates] read and write the module-level [_cache],
    read the clock and call the provider.  They are embedded with the cache
    passed in and out, the clock reading [now] and the provider's replies as
    arguments.  Times are binary64 floats, as [time.time()] returns them.
    The replies are parsed JSON values.  Three built-ins of Python are
    arguments of the embedding: [str.lower], [str.upper] (Unicode case
    mappings) and [/] on two parsed JSON values. *)

Module Market.

(** What [r.json()] returns. *)
#[warnings="-register-all"]
Inductive json : Type :=
| JNull
| JBool (b : bool)
| JInt (z : Z)
| JFloat (x : float)
| JString (s : string)
| JArray (items : list json)
| JObject (fields : list (string * json)).

(** [bool(v)], the test of [if v], [not v] and [v or ...]. *)
Definition py_truthy (v : json) : bool :=
  match v with
  | JNull => false
  | JBool b => b
  | JInt z => negb (z =? 0)%Z
  | JFloat x => negb (PrimFloat.eqb x 0%float)
  | JString EmptyString => false
  | JString (String _ _) => true
  | JArray [] => false
  | JArray (_ :: _) => true
  | JObject [] => false
  | JObject (_ :: _) => true
  end.

(** The entry of [key] in a dictionary kept as the list of its items, in
    insertion order. *)
Fixpoint dict_lookup {V : Type} (d : list (string * V)) (key : string) : option V :=
  match d with
  | [] => None
  | (k, v) :: rest => if (k =? key)%string then Some v else dict_lookup rest key
  end.

(** [d.get(key, default)]. *)
Definition dict_get_default (d : list (string * json)) (key : string)
    (default : json) : json :=
  match dict_lookup d key with
  | Some v => v
  | None => default
  end.

(** [d.get(key)]: [None] when the key is missing. *)
Definition dict_get (d : list (string * json)) (key : string) : json :=
  dict_get_default d key JNull.

(** [d[key] = v]: an existing key keeps its place, a new key goes last. *)
Fixpoint dict_set {V : Type} (d : list (string * V)) (key : string) (v : V)
    : list (string * V) :=
  match d with
  | [] => [(key, v)]
  | (k, w) :: rest =>
      if (k =? key)%string then (k, v) :: rest else (k, w) :: dict_set rest key v
  end.

(** The exceptions of these two handlers. *)
Inductive error : Type :=
| RequestException    (* requests.get, raise_for_status or r.json() failed *)
| AttributeError      (* a method of a value that has none of that name *)
| TypeError           (* not iterable; operands [/] does not take *)
| ZeroDivisionError
| OverflowError.

Inductive outcome (A : Type) : Type :=
| Returned (a : A)
| Raised (e : error).

Arguments Returned {A} a.
Arguments Raised {A} e.

Definition and_then {A B : Type} (c : outcome A) (k : A -> outcome B) : outcome B :=
  match c with
  | Returned a => k a
  | Raised e => Raised e
  end.

Declare Scope market_scope.
Notation "x <- c ;; k" := (and_then c (fun x => k))
  (at level 61, c at next level, right associativity) : market_scope.
Local Open Scope market_scope.

(** A comprehension [[f(x) for x in xs]] whose [f] may raise. *)
Fixpoint map_outcome {A B : Type} (f : A -> outcome B) (xs : list A) : outcome (list B) :=
  match xs with
  | [] => Returned []
  | x :: rest =>
      y <- f x ;;
      ys <- map_outcome f rest ;;
      Returned (y :: ys)
  end.

(** A comprehension [[x for x in xs if test(x)]] whose test may raise. *)
Fixpoint filter_outcome {A : Type} (test : A -> outcome bool) (xs : list A) : outcome (list A) :=
  match xs with
  | [] => Returned []
  | x :: rest =>
      keep <- test x ;;
      ys <- filter_outcome test rest ;;
      Returned (if keep then x :: ys else ys)
  end.

(** What comes of [requests.get(...)], [r.raise_for_status()] and
    [r.json()]: an exception, or the parsed body. *)
Inductive http_reply : Type :=
| HttpFailed
| HttpJson (body : json).

(** One entry of [_cache]: [{"data": ..., "ts": ...}]. *)
Record Entry (A : Type) : Type := {
  data : option A;
  ts : float
}.

Arguments Build_Entry {A} _ _.
Arguments data {A} _.
Arguments ts {A} _.

(** A coin as the handler keeps it (lines 78-85). *)
Record Coin : Type := {
  c_id : json;
  c_symbol : json;
  c_name : json;
  c_image : json;
  c_current_price : json;
  c_market_cap_rank : json
}.

(** [_cache], line 22. *)
Record Cache : Type := {
  cache_coins : Entry (list Coin);
  cache_rates : Entry (list (string * float))
}.

(** The cache when the module is loaded. *)
Definition initial_cache : Cache :=
  {| cache_coins := {| data := None; ts := 0%float |};
     cache_rates := {| data := None; ts := 0%float |} |}.

(** [CACHE_TTL = 60 * 10]. *)
Definition CACHE_TTL : float := 600%float.

(** [now - entry["ts"] > CACHE_TTL]. *)
Definition stale {A : Type} (now : float) (e : Entry A) : bool :=
  PrimFloat.ltb CACHE_TTL (PrimFloat.sub now (ts e)).

(** [not data] for a cached list or dictionary: [None] and the empty
    container are both false values. *)
Definition no_data {A : Type} (d : option (list A)) : bool :=
  match d with
  | None => true
  | Some [] => true
  | Some (_ :: _) => false
  end.

(** The cached container once [not data] is false. *)
Definition cached {A : Type} (d : option (list A)) : list A :=
  match d with
  | Some l => l
  | None => []
  end.

(** [s in t] on strings. *)
Fixpoint contains (s t : string) : bool :=
  String.prefix s t ||
  match t with
  | EmptyString => false
  | String _ rest => contains s rest
  end.

(** [all_coins.extend(body)]: the items of a list, the keys of a
    dictionary, the characters of a string; anything else is not iterable. *)
Definition extend (all_coins : list json) (body : json) : outcome (list json) :=
  match body with
  | JArray items => Returned (all_coins ++ items)
  | JObject fields => Returned (all_coins ++ map (fun kv => JString (fst kv)) fields)
  | JString s =>
      Returned (all_coins ++
                map (fun ch => JString (String ch EmptyString)) (list_ascii_of_string s))
  | JNull | JBool _ | JInt _ | JFloat _ => Raised TypeError
  end.

(** The dictionary of lines 78-85 for one coin [c] of the reply; [c.get]
    exists on dictionaries only. *)
Definition to_coin (c : json) : outcome Coin :=
  match c with
  | JObject fields =>
      Returned {| c_id := dict_get fields "id";
                  c_symbol := dict_get fields "symbol";
                  c_name := dict_get fields "name";
                  c_image := dict_get fields "image";
                  c_current_price := dict_get fields "current_price";
                  c_market_cap_rank := dict_get fields "market_cap_rank" |}
  | _ => Raised AttributeError
  end.

(** Lines 60-87: the two pages, one after the other, then the mapping. *)
Definition fetch_coins (markets : Z -> http_reply) : outcome (list Coin) :=
  match markets 1%Z with
  | HttpFailed => Raised RequestException
  | HttpJson page1 =>
      all_coins <- extend [] page1 ;;
      match markets 2%Z with
      | HttpFailed => Raised RequestException
      | HttpJson page2 =>
          all_coins <- extend all_coins page2 ;;
          map_outcome to_coin all_coins
      end
  end.

(** [{"count": len(data), "coins": data}]. *)
Record CoinsReply : Type := {
  count : nat;
  coins : list Coin
}.

(** [{"base": "USD", "rates": data}]. *)
Record RatesReply : Type := {
  base : string;
  rates : list (string * float)
}.

Section Builtins.

(** [str.lower], [str.upper], and [a / b] on two parsed values. *)
Variable lower : string -> string.
Variable upper : string -> string.
Variable truediv : json -> json -> outcome float.

(** [(v or "").lower()]. *)
Definition lowered_or_empty (v : json) : outcome string :=
  if py_truthy v then
    match v with
    | JString s => Returned (lower s)
    | _ => Raised AttributeError
    end
  else Returned (lower EmptyString).

(** The test of line 92 for the lowered query [s]. *)
Definition coin_matches (s : string) (c : Coin) : outcome bool :=
  name <- lowered_or_empty (c_name c) ;;
  if contains s name then Returned true
  else
    symbol <- lowered_or_empty (c_symbol c) ;;
    Returned (contains s symbol).

(** Lines 90-93: the selection and the reply. *)
Definition select_coins (search : option string) (data : list Coin) : outcome CoinsReply :=
  data <-
    match search with
    | None | Some EmptyString => Returned data
    | Some q => let s := lower q in filter_outcome (coin_matches s) data
    end ;;
  Returned {| count := List.length data; coins := data |}.

(** [get_coins], lines 55-93. *)
Definition get_coins (markets : Z -> http_reply) (now : float)
    (search : option string) (cache : Cache) : outcome CoinsReply * Cache :=
  let data := data (cache_coins cache) in
  if no_data data || stale now (cache_coins cache) then
    match fetch_coins markets with
    | Raised e => (Raised e, cache)
    | Returned data =>
        (select_coins search data,
         {| cache_coins := {| data := Some data; ts := now |};
            cache_rates := cache_rates cache |})
    end
  else (select_coins search (cached data), cache).

(** [v.get] exists on dictionaries only. *)
Definition as_dict (v : json) : outcome (list (string * json)) :=
  match v with
  | JObject fields => Returned fields
  | _ => Raised AttributeError
  end.

(** [x == "fiat"] for a parsed value [x]. *)
Definition is_text (v : json) (s : string) : bool :=
  match v with
  | JString t => (t =? s)%string
  | _ => false
  end.

(** One turn of the loop of lines 114-117 on the dictionary [out]. *)
Definition add_rate (btc_per_usd : json) (out : list (string * float))
    (item : string * list (string * json)) : outcome (list (string * float)) :=
  let '(code, meta) := item in
  if is_text (dict_get meta "type") "fiat" then
    unit_in_usd <- truediv (dict_get_default meta "value" (JInt 0)) btc_per_usd ;;
    Returned (dict_set out (upper code) unit_in_usd)
  else Returned out.

(** The loop of lines 114-117. *)
Fixpoint add_rates (btc_per_usd : json) (out : list (string * float))
    (items : list (string * list (string * json))) : outcome (list (string * float)) :=
  match items with
  | [] => Returned out
  | item :: rest =>
      out <- add_rate btc_per_usd out item ;;
      add_rates btc_per_usd out rest
  end.

(** Lines 104-118: the rates dictionary computed from the parsed body. *)
Definition rates_from (body : json) : outcome (list (string * float)) :=
  top <- as_dict body ;;
  rates <- as_dict (dict_get_default top "rates" (JObject [])) ;;
  (* line 106: every value of [rates] is asked for its ["value"] *)
  items <- map_outcome (fun kv => meta <- as_dict (snd kv) ;; Returned (fst kv, meta)) rates ;;
  let btc_per_usd :=
    match dict_lookup items "usd" with
    | Some meta => dict_get meta "value"
    | None => dict_get [] "value"
    end in
  if negb (py_truthy btc_per_usd) then Returned [("USD"%string, 1%float)]
  else add_rates btc_per_usd [] items.

(** [get_fx_rates], lines 97-120. *)
Definition get_fx_rates (exchange_rates : http_reply) (now : float)
    (cache : Cache) : outcome RatesReply * Cache :=
  let data := data (cache_rates cache) in
  if no_data data || stale now (cache_rates cache) then
    match exchange_rates with
    | HttpFailed => (Raised RequestException, cache)
    | HttpJson body =>
        match rates_from body with
        | Raised e => (Raised e, cache)
        | Returned data =>
            (Returned {| base := "USD"; rates := data |},
             {| cache_coins := cache_coins cache;
                cache_rates := {| data := Some data; ts := now |} |})
        end
    end
  else (Returned {| base := "USD"; rates := cached data |}, cache).

End Builtins.

(** [str.lower] on ASCII text. *)
Definition ascii_lower_char (ch : ascii) : ascii :=
  let n := nat_of_ascii ch in
  if ((65 <=? n) && (n <=? 90))%nat then ascii_of_nat (n + 32) else ch.

Definition ascii_lower (s : string) : string :=
  string_of_list_ascii (map ascii_lower_char (list_ascii_of_string s)).

(** [str.upper] on ASCII text. *)
Definition ascii_upper_char (ch : ascii) : ascii :=
  let n := nat_of_ascii ch in
  if ((97 <=? n) && (n <=? 122))%nat then ascii_of_nat (n - 32) else ch.

Definition ascii_upper (s : string) : string :=
  string_of_list_ascii (map ascii_upper_char (list_ascii_of_string s)).

(** The number a parsed value stands for in [/], when it is a float, a
    [bool], or an [int] that a float holds exactly. *)
Definition as_number (v : json) : option float :=
  match v with
  | JFloat x => Some x
  | JInt z =>
      if (Z.abs z <=? 2 ^ 53)%Z then Some (float_of_int z) else None
  | JBool true => Some 1%float
  | JBool false => Some 0%float
  | _ => None
  end.

(** [a / b] for the examples: IEEE division on floats and on [int]s that a
    float holds exactly, as CPython computes it there.  Larger [int]s are not
    followed ([OverflowError] stands in); [None], strings and containers are
    a [TypeError]. *)
Definition float_truediv (a b : json) : outcome float :=
  match a, b with
  | JNull, _ | JString _, _ | JArray _, _ | JObject _, _
  | _, JNull | _, JString _ | _, JArray _ | _, JObject _ => Raised TypeError
  | _, _ =>
      match as_number a, as_number b with
      | Some x, Some y =>
          if PrimFloat.eqb y 0%float then Raised ZeroDivisionError
          else Returned (PrimFloat.div x y)
      | _, _ => Raised OverflowError
      end
  end.

(** ** Sample replies *)

Definition coin_json (id symbol name : string) (rank : Z) : json :=
  JObject [("id", JString id); ("symbol", JString symbol); ("name", JString name);
           ("image", JNull); ("current_price", JFloat 1%float);
           ("market_cap_rank", JInt rank)]%string.

(** A provider with two coins on the first page and one on the second. *)
Definition three_coins (page : Z) : http_reply :=
  if (page =? 1)%Z
  then HttpJson (JArray [coin_json "bitcoin" "btc" "Bitcoin" 1;
                         coin_json "ethereum" "eth" "Ethereum" 2])
  else HttpJson (JArray [coin_json "tether" "usdt" "Tether" 3]).

(** A provider whose first page arrives and whose second page fails. *)
Definition second_page_down (page : Z) : http_reply :=
  if (page =? 1)%Z then three_coins 1 else HttpFailed.

(** A provider that is down. *)
Definition provider_down (page : Z) : http_reply := HttpFailed.

(** A provider with no coin at all. *)
Definition no_coins (page : Z) : http_reply := HttpJson (JArray []).

(** The body [{"rates": {code: meta, ...}}] for the given items. *)
Definition rates_body (items : list (string * list (string * json))) : json :=
  JObject [("rates"%string,
            JObject (map (fun kv => (fst kv, JObject (snd kv))) items))].

Definition rate_meta (kind : string) (v : float) : list (string * json) :=
  [("name", JString "n"); ("unit", JString "u"); ("value", JFloat v);
   ("type", JString kind)]%string.

(** Rates per bitcoin: the dollar, the euro and ether. *)
Definition sample_rates : list (string * list (string * json)) :=
  [("usd", rate_meta "fiat" 50000); ("eur", rate_meta "fiat" 40000);
   ("eth", rate_meta "crypto" 20)]%string%float.

(** Rates with no dollar entry. *)
Definition rates_without_usd : list (string * list (string * json)) :=
  [("eur", rate_meta "fiat" 40000); ("eth", rate_meta "crypto" 20)]%string%float.

(** The codes of the fiat items, upper-cased, in order. *)
Definition fiat_codes (upper : string -> string)
    (items : list (string * list (string * json))) : list string :=
  map (fun kv => upper (fst kv))
      (filter (fun kv => is_text (dict_get (snd kv) "type") "fiat") items).

(** The text [(v or "")] stands for, when [v] is a string or a false value. *)
Definition text_of (v : json) : option string :=
  if py_truthy v then
    match v with
    | JString s => Some s
    | _ => None
    end
  else Some EmptyString.

(** A coin whose name and symbol are strings or false values. *)
Definition textual (c : Coin) : Prop :=
  text_of (c_name c) <> None /\ text_of (c_symbol c) <> None.

(** Line 92 on such a coin. *)
Definition matches_text (lower : string -> string) (s : string) (c : Coin) : bool :=
  match text_of (c_name c), text_of (c_symbol c) with
  | Some n, Some y => contains s (lower n) || contains s (lower y)
  | _, _ => false
  end.

(** [btc_per_usd], line 108, for the items of the rates dictionary. *)
Definition usd_value (items : list (string * list (string * json))) : json :=
  match dict_lookup items "usd" with
  | Some meta => dict_get meta "value"
  | None => JNull
  end.

(** The rate stored for a fiat item: its code upper-cased, with the
    quotient [quot] of its value by the dollar's. *)
Definition fiat_rates (upper : string -> string)
    (quot : string * list (string * json) -> float)
    (items : list (string * list (string * json))) : list (string * float) :=
  map (fun kv => (upper (fst kv), quot kv))
      (filter (fun kv => is_text (dict_get (snd kv) "type") "fiat") items).

(** The coins of [three_coins], as the handler keeps them. *)
Definition sample_coins : list Coin :=
  match fetch_coins three_coins with
  | Returned all => all
  | Raised _ => []
  end.

(** The cache after a first call at time 1000.0. *)
Definition warm_cache : Cache :=
  snd (get_coins ascii_lower three_coins 1000%float None initial_cache).

(** The quotient of an item's value by 50000.0, the dollar's value in
    [sample_rates]. *)
Definition sample_quot (kv : string * list (string * json)) : float :=
  match float_truediv (dict_get_default (snd kv) "value" (JInt 0)) (JFloat 50000%float) with
  | Returned x => x
  | Raised _ => 0%float
  end.

End Market.

(** * The diagnostics endpoint (lines 214-247)

    [test_database] imports the [database] module, which is not part of the
    repository, and reads two environment variables.  What the import and
    the database object do is an argument of the embedding, and so are the
    variables; an exception's message arrives already cut, as
    [str(e)[:50]]. *)

Module Diagnostics.

Local Open Scope string_scope.

(** [getattr(db, "name", default)]. *)
Inductive name_attribute : Type :=
| NameAbsent
| NameIs (name : string)
| NameRaised (message : string).

(** [db.list_collection_names()] and the slice of its result. *)
Inductive listing : Type :=
| Listed (names : list string)
| ListingRaised (message : string).

(** [from database import db]. *)
Inductive database_import : Type :=
| ModuleNotFound                          (* ImportError *)
| ImportRaised (message : string)         (* another Exception *)
| DbIsNone
| Db (name : name_attribute) (collections : listing).

(** The [response] dictionary. *)
Record Report : Type := {
  backend : string;
  database : string;
  database_url : option string;
  database_name : option string;
  connection_status : string;
  collections : list string
}.

Definition set_database (r : Report) (v : string) : Report :=
  {| backend := backend r; database := v; database_url := database_url r;
     database_name := database_name r;
     connection_status := connection_status r; collections := collections r |}.

Definition set_database_url (r : Report) (v : string) : Report :=
  {| backend := backend r; database := database r; database_url := Some v;
     database_name := database_name r;
     connection_status := connection_status r; collections := collections r |}.

Definition set_database_name (r : Report) (v : string) : Report :=
  {| backend := backend r; database := database r; database_url := database_url r;
     database_name := Some v;
     connection_status := connection_status r; collections := collections r |}.

Definition set_connection_status (r : Report) (v : string) : Report :=
  {| backend := backend r; database := database r; database_url := database_url r;
     database_name := database_name r;
     connection_status := v; collections := collections r |}.

Definition set_collections (r : Report) (v : list string) : Report :=
  {| backend := backend r; database := database r; database_url := database_url r;
     database_name := database_name r;
     connection_status := connection_status r; collections := v |}.

(** Lines 216-223. *)
Definition initial_report : Report :=
  {| backend := "✅ Running";
     database := "❌ Not Available";
     database_url := None;
     database_name := None;
     connection_status := "Not Connected";
     collections := [] |}.

(** Lines 225-243: the [try] statement. *)
Definition probe (imported : database_import) (response : Report) : Report :=
  match imported with
  | ModuleNotFound => set_database response "❌ Database module not found"
  | ImportRaised message => set_database response ("❌ Error: " ++ message)
  | DbIsNone => set_database response "⚠️  Available but not initialized"
  | Db name found =>
      let response := set_database response "✅ Available" in
      let response := set_database_url response "✅ Configured" in
      match name with
      | NameRaised message => set_database response ("❌ Error: " ++ message)
      | NameAbsent | NameIs _ =>
          let response :=
            set_database_name response
              match name with
              | NameIs v => v
              | _ => "✅ Connected"
              end in
          let response := set_connection_status response "Connected" in
          match found with
          | Listed names =>
              let response := set_collections response (firstn 10 names) in
              set_database response "✅ Connected & Working"
          | ListingRaised message =>
              set_database response ("⚠️  Connected but Error: " ++ message)
          end
      end
  end.

(** [os.getenv(name)] as a condition: set, and not to the empty string. *)
Definition env_set (v : option string) : bool :=
  match v with
  | Some (String _ _) => true
  | Some EmptyString | None => false
  end.

(** [test_database], with the environment variables [DATABASE_URL] and
    [DATABASE_NAME]. *)
Definition test_database (imported : database_import)
    (env_url env_name : option string) : Report :=
  let response := probe imported initial_report in
  let response :=
    set_database_url response (if env_set env_url then "✅ Set" else "❌ Not Set") in
  set_database_name response (if env_set env_name then "✅ Set" else "❌ Not Set").

(** What the two variables are reported as. *)
Definition env_report (v : option string) : string :=
  if env_set v then "✅ Set" else "❌ Not Set".

End Diagnostics.

(** * The two numeric handlers in binary64

    [projection] and [get_cagr] once more, on the kernel's binary64 floats:
    [+], [-], [*], [/] and the comparisons are IEEE operations, bit for bit
    what CPython computes; [round(x)] and [int(x)] are computed on the exact
    value of the float and raise on infinities and NaN as Python's do.

    Two built-ins are arguments of the embedding:
    - [fpow], the operator [**] on floats: the C library's [pow] with
      CPython's error handling.  It returns a float or a complex number, or
      raises [OverflowError] or [ZeroDivisionError];
    - [round2], [round(x, 2)] on a float, which returns a float and never
      raises.

    The field constraints are checked first, as FastAPI does before it
    calls the handler; the outcome is the value the handler function
    returns, or the exception it raises.  [int] values (period counts,
    indices) are converted with [float_of_int] where Python converts them,
    on the right of [**] and on the left of [/]. *)

Module Binary64.

Local Open Scope float_scope.

Inductive error : Type :=
| ZeroDivisionError
| OverflowError
| ValueError
| IndexError
| TypeError
| RequestValidationError.   (* a field constraint is violated: HTTP 422 *)

Inductive outcome (A : Type) : Type :=
| Returned (a : A)
| Raised (e : error).

Arguments Returned {A} a.
Arguments Raised {A} e.

Definition and_then {A B : Type} (c : outcome A) (k : A -> outcome B) : outcome B :=
  match c with
  | Returned a => k a
  | Raised e => Raised e
  end.

Declare Scope binary64_scope.
Notation "x <- c ;; k" := (and_then c (fun x => k))
  (at level 61, c at next level, right associativity) : binary64_scope.
Local Open Scope binary64_scope.

Fixpoint map_outcome {A B : Type} (f : A -> outcome B) (xs : list A) : outcome (list B) :=
  match xs with
  | [] => Returned []
  | x :: rest =>
      y <- f x ;;
      ys <- map_outcome f rest ;;
      Returned (y :: ys)
  end.

(** The integer nearest to [m * 2^e], a tie going to the even neighbour. *)
Definition nearest_even (m : positive) (e : Z) : Z :=
  if (0 <=? e)%Z then (Zpos m * 2 ^ e)%Z
  else
    let d := (2 ^ (- e))%Z in
    let q := (Zpos m / d)%Z in
    let r := (Zpos m mod d)%Z in
    match (2 * r ?= d)%Z with
    | Lt => q
    | Gt => (q + 1)%Z
    | Eq => if Z.even q then q else (q + 1)%Z
    end.

(** The integer part of [m * 2^e]. *)
Definition toward_zero (m : positive) (e : Z) : Z :=
  if (0 <=? e)%Z then (Zpos m * 2 ^ e)%Z else (Zpos m / 2 ^ (- e))%Z.

Definition signed (negative : bool) (z : Z) : Z :=
  if negative then (- z)%Z else z.

(** [round(x)]: an [int]; infinities and NaN raise. *)
Definition py_round (x : float) : outcome Z :=
  match Prim2SF x with
  | S754_zero _ => Returned 0%Z
  | S754_finite s m e => Returned (signed s (nearest_even m e))
  | S754_infinity _ => Raised OverflowError
  | S754_nan => Raised ValueError
  end.

(** [int(x)]. *)
Definition py_int (x : float) : outcome Z :=
  match Prim2SF x with
  | S754_zero _ => Returned 0%Z
  | S754_finite s m e => Returned (signed s (toward_zero m e))
  | S754_infinity _ => Raised OverflowError
  | S754_nan => Raised ValueError
  end.

(** [x / y] on floats. *)
Definition py_div (x y : float) : outcome float :=
  if PrimFloat.eqb y 0 then Raised ZeroDivisionError else Returned (x / y).

(** [xs[i]]. *)
Definition py_item {A : Type} (xs : list A) (i : Z) : outcome A :=
  let len := Z.of_nat (List.length xs) in
  let j := if (i <? 0)%Z then (len + i)%Z else i in
  if ((j <? 0) || (len <=? j))%Z then Raised IndexError
  else match nth_error xs (Z.to_nat j) with
       | Some x => Returned x
       | None => Raised IndexError
       end.

(** The value of [x ** y]. *)
Inductive number : Type :=
| Float (x : float)
| Complex.

Definition number_sub (v : number) (c : float) : number :=
  match v with
  | Float x => Float (x - c)
  | Complex => Complex
  end.

(** [class ProjectionRequest(BaseModel)]. *)
Record ProjectionRequest : Type := {
  req_type : contribution;
  req_amount : float;
  req_years : float;
  req_cagr : float;
  req_frequency : compounding
}.

(** The field constraints, lines 28-30; [-0.99] is the float Python reads. *)
Definition ProjectionRequest_valid (req : ProjectionRequest) : bool :=
  (0 <? req_amount req) &&
  (0 <? req_years req) && (req_years req <=? 70) &&
  (-0x1.fae147ae147aep-1 <=? req_cagr req) && (req_cagr req <=? 10).

(** [class ProjectionResponse(BaseModel)]. *)
Record ProjectionResponse : Type := {
  total_invested : float;
  final_value : float;
  profit : float;
  cagr : float;
  years : float;
  series : list (ProjectionPoint float)
}.

(** What [get_cagr] reads of the provider's reply [r]: [r.status_code],
    [r.text] and [r.json().get("prices", [])], a list of
    [[timestamp, price]] pairs of floats. *)
Record Response : Type := {
  status_code : Z;
  text : string;
  prices : list (float * float)
}.

(** The two shapes of the dictionary [get_cagr] returns: with
    ["cagr": None] and an error, or with the estimate, the two prices and
    the series of [{"year": ..., "price": ...}] points. *)
Inductive CagrResult : Type :=
| CagrUnavailable (coin_id : string) (years : float) (currency : string)
    (error : string)
| CagrEstimate (coin_id : string) (years : float) (currency : string)
    (cagr : number) (start_price end_price : float) (series : list (Z * float)).

Definition result_cagr (res : CagrResult) : option number :=
  match res with
  | CagrUnavailable _ _ _ _ => None
  | CagrEstimate _ _ _ c _ _ _ => Some c
  end.

Definition result_series (res : CagrResult) : option (list (Z * float)) :=
  match res with
  | CagrUnavailable _ _ _ _ => None
  | CagrEstimate _ _ _ _ _ _ s => Some s
  end.

Section Builtins.

Variable fpow : float -> float -> outcome number.
Variable round2 : float -> float.

(** [x ** y] where the handler goes on with a float.  A request within the
    field constraints has [1 + cagr >= 0.01], and the handler raises no
    other base to a power than [1 + cagr] and [1 + r] for the monthly rate
    [r]: for such bases Python's [**] returns a float or raises.  A complex
    power is not followed further ([TypeError] stands in for what Python
    would do with it), so nothing is said about a response in that case. *)
Definition float_pow (x y : float) : outcome float :=
  v <- fpow x y ;;
  match v with
  | Float p => Returned p
  | Complex => Raised TypeError
  end.

(** [(1 + rate_annual) ** (1 / 12) - 1], lines 167 and 195. *)
Definition rate_monthly (rate_annual : float) : outcome float :=
  p <- float_pow (1 + rate_annual) (1 / 12) ;;
  Returned (p - 1).

(** Lines 166-175: [r], [n] and [label_div]. *)
Definition rate_and_periods (req : ProjectionRequest) : outcome (float * Z * Z) :=
  match req_frequency req with
  | monthly =>
      r <- rate_monthly (req_cagr req) ;;
      n <- py_round (req_years req * 12) ;;
      Returned (r, n, 12%Z)
  | yearly =>
      n <- py_round (req_years req) ;;
      Returned (req_cagr req, n, 1%Z)
  end.

(** The body of the loop of lines 185-188 for year [y]. *)
Definition lump_point (invested r : float) (label_div y : Z)
    : outcome (ProjectionPoint float) :=
  let periods := (y * label_div)%Z in
  g <- float_pow (1 + r) (float_of_int periods) ;;
  Returned (Build_ProjectionPoint y invested (invested * g)).

(** [months_total], line 194. *)
Definition months_total (req : ProjectionRequest) (n : Z) : Z :=
  match req_frequency req with
  | monthly => n
  | yearly => (n * 12)%Z
  end.

(** [r_month], line 195. *)
Definition r_month (req : ProjectionRequest) (r : float) : outcome float :=
  match req_frequency req with
  | monthly => Returned r
  | yearly => rate_monthly (req_cagr req)
  end.

(** Lines 164-200: [invested], [value] and [series] before the response is
    built. *)
Definition projection_totals (req : ProjectionRequest)
    : outcome (float * float * list (ProjectionPoint float)) :=
  rnl <- rate_and_periods req ;;
  let '(r, n, label_div) := rnl in
  match req_type req with
  | lump =>
      let invested := req_amount req in
      g <- float_pow (1 + r) (float_of_int n) ;;
      let value := invested * g in
      last_year <- py_round (req_years req) ;;
      series <- map_outcome (lump_point invested r label_div)
                  (range 1 (last_year + 1)) ;;
      Returned (invested, value, series)
  | sip =>
      let amount := req_amount req in
      let months_total := months_total req n in
      r_month <- r_month req r ;;
      Returned (sip_loop amount r_month months_total)
  end.

(** Lines 202-211. *)
Definition respond (req : ProjectionRequest)
    (totals : float * float * list (ProjectionPoint float)) : ProjectionResponse :=
  let '(invested, value, series) := totals in
  let profit := value - invested in
  {| total_invested := round2 invested;
     final_value := round2 value;
     profit := round2 profit;
     cagr := req_cagr req;
     years := req_years req;
     series := series |}.

(** The endpoint: the request is validated, then handled. *)
Definition projection (req : ProjectionRequest) : outcome ProjectionResponse :=
  if ProjectionRequest_valid req then
    totals <- projection_totals req ;;
    Returned (respond req totals)
  else Raised RequestValidationError.

(** The loop body of lines 144-148 for index [i]. *)
Definition strided_point (prices : list (float * float)) (len i : Z)
    : outcome (Z * float) :=
  let idx_year := Z.min i (len - 1) in
  sample <- py_item prices idx_year ;;
  year_number <- py_round (float_of_int idx_year / 365) ;;
  Returned (year_number, snd sample).

(** [get_cagr], lines 124-159; [years] is checked against
    [Query(5.0, gt=0, le=70)] first. *)
Definition get_cagr (market_chart : string -> string -> Z -> Response)
    (coin_id : string) (years : float) (currency : string) : outcome CagrResult :=
  if (0 <? years) && (years <=? 70) then
    days <- py_int (years * 365) ;;
    let r := market_chart coin_id currency days in
    if negb (status_code r =? 200)%Z then
      Returned (CagrUnavailable coin_id years currency (text r))
    else
      let prices := prices r in
      let len := Z.of_nat (List.length prices) in
      if (len <? 2)%Z then
        Returned (CagrUnavailable coin_id years currency "Insufficient data")
      else
        first <- py_item prices 0 ;;
        let start_price := snd first in
        final <- py_item prices (-1) ;;
        let end_price := snd final in
        ratio <- py_div end_price start_price ;;
        exponent <- py_div 1 years ;;
        p <- fpow ratio exponent ;;
        let annual_cagr := number_sub p 1 in
        series <- map_outcome (strided_point prices len) (range_step len 365) ;;
        last_year <- py_int years ;;
        let series := series ++ [(last_year, end_price)] in
        Returned (CagrEstimate coin_id years currency annual_cagr
                    start_price end_price series)
  else Raised RequestValidationError.

End Builtins.

(** ** Built-ins for the examples *)

(** [x ** y] at the points where C fixes the result: [x ** 0.0] and
    [1.0 ** y] are 1.0, and [x ** 1.0] is [x].  The examples use no other
    point; elsewhere this stand-in raises. *)
Definition special_pow (x y : float) : outcome number :=
  if PrimFloat.eqb y 0 then Returned (Float 1)
  else if PrimFloat.eqb x 1 then Returned (Float 1)
  else if PrimFloat.eqb y 1 then Returned (Float x)
  else Raised OverflowError.

(** [round(x, 2)] as CPython computes it: the exact value of [x] is rounded
    to two decimals, ties to even, and the float nearest to that decimal is
    returned.  From [2^46] on, neighbouring floats are more than 0.01 apart
    and the float returned is [x] itself; zeros, infinities and NaN are
    returned as they are. *)
Definition cpython_round2 (x : float) : float :=
  match Prim2SF x with
  | S754_finite s m e =>
      if (PrimFloat.abs x <? 0x1p+46) then
        let hundredths := nearest_even (100 * m) e in
        if (hundredths =? 0)%Z then (if s then -0 else 0)
        else float_of_int (signed s hundredths) / 100
      else x
  | _ => x
  end.

(** ** Sample requests and replies *)

(** 250 a month for 2 years at 0%, yearly frequency. *)
Definition flat_sip : ProjectionRequest :=
  {| req_type := sip; req_amount := 250; req_years := 2; req_cagr := 0;
     req_frequency := yearly |}.


(** A lump sum of 1 for one year at 12.345%, compounded yearly. *)
Definition fine_lump : ProjectionRequest :=
  {| req_type := lump; req_amount := 1; req_years := 1;
     req_cagr := 0x1.f9a6b50b0f27cp-4; req_frequency := yearly |}.

(** Two samples, the price doubling from 100.0 to 200.0. *)
Definition doubling_reply : Response :=
  {| status_code := 200; text := "OK";
     prices := [(0, 100); (86400000, 200)] |}.

Definition fixed_reply (r : Response) : string -> string -> Z -> Response :=
  fun _ _ _ => r.

(** 100 a month at 0% with monthly frequency over 0.9583333333333333 years:
    the binary64 product with 12 is 11.5, a tie. *)
Definition tie_sip : ProjectionRequest :=
  {| req_type := sip; req_amount := 100; req_years := 0x1.eaaaaaaaaaaaap-1;
     req_cagr := 0; req_frequency := monthly |}.

(** 366 daily samples, the price rising from 100.0 by 1.0 a day. *)
Definition year_reply : Response :=
  {| status_code := 200; text := "OK";
     prices :=
       map (fun i => (float_of_int (86400000 * Z.of_nat i),
                      float_of_int (100 + Z.of_nat i)))
           (seq 0 366) |}.

(** The sample at index [i], for an index within the list. *)
Definition price_at (prices : list (float * float)) (i : nat) : float :=
  snd (nth i prices (0, 0)).

End Binary64.

(** * Proofs *)

(** ** Facts about the built-ins *)

Lemma py_round_near (x : R) (z : Z) :
  IZR z - 1 / 2 < x < IZR z + 1 / 2 -> py_round x = z.
Proof.
  intros [Hlo Hhi]. unfold py_round.
  pose proof (Zfloor_bound x) as [Hf1 Hf2].
  assert (Hcases : (Zfloor x = z \/ Zfloor x = z - 1)%Z).
  { assert (IZR (z - 2) < IZR (Zfloor x)) as A by (rewrite minus_IZR; lra).
    assert (IZR (Zfloor x) < IZR (z + 1)) as B by (rewrite plus_IZR; lra).
    apply lt_IZR in A, B. lia. }
  destruct Hcases as [E | E]; rewrite E in *.
  - destruct (Rlt_dec (x - IZR z) (1 / 2)); [reflexivity | lra].
  - rewrite minus_IZR in *.
    destruct (Rlt_dec (x - (IZR z - 1)) (1 / 2)); [lra |].
    destruct (Rlt_dec (1 / 2) (x - (IZR z - 1))); [lia | lra].
Qed.

Lemma py_round_IZR (z : Z) : py_round (IZR z) = z.
Proof. apply py_round_near. lra. Qed.

(** Rounding moves a number by at most one half. *)
Lemma py_round_error (x : R) : - (1 / 2) <= IZR (py_round x) - x <= 1 / 2.
Proof.
  unfold py_round. pose proof (Zfloor_bound x) as [Hf1 Hf2].
  destruct (Rlt_dec (x - IZR (Zfloor x)) (1 / 2)); [lra |].
  destruct (Rlt_dec (1 / 2) (x - IZR (Zfloor x))).
  - rewrite plus_IZR. lra.
  - destruct (Z.even (Zfloor x)); [lra | rewrite plus_IZR; lra].
Qed.

Lemma py_int_nonneg (x : R) (z : Z) :
  IZR z <= x < IZR z + 1 -> 0 <= x -> py_int x = z.
Proof.
  intros H H0. unfold py_int.
  destruct (Rle_dec 0 x); [now apply Zfloor_eq | lra].
Qed.

Lemma py_pow_pos (x y : R) : 0 < x -> py_pow x y = Ok (Float (Rpower x y)).
Proof. intros H. unfold py_pow. destruct (Rlt_dec 0 x); [reflexivity | lra]. Qed.

Lemma Rpower_pos (x y : R) : 0 < Rpower x y.
Proof. unfold Rpower. apply exp_pos. Qed.

Lemma Rpower_IZR_nat (x : R) (z : Z) :
  0 < x -> (0 <= z)%Z -> Rpower x (IZR z) = x ^ Z.to_nat z.
Proof.
  intros Hx Hz. rewrite <- (Z2Nat.id z Hz) at 1.
  rewrite <- INR_IZR_INZ. now apply Rpower_pow.
Qed.

(** ** Ranges *)

Lemma range_nil (lo hi : Z) : (hi <= lo)%Z -> range lo hi = [].
Proof.
  intros Hle. unfold range.
  replace (Z.to_nat (hi - lo)) with O by lia. reflexivity.
Qed.

Lemma range_snoc (lo hi : Z) :
  (lo <= hi)%Z -> range lo (hi + 1) = range lo hi ++ [hi].
Proof.
  intros Hle. unfold range.
  replace (Z.to_nat (hi + 1 - lo)) with (S (Z.to_nat (hi - lo))) by lia.
  rewrite seq_S, map_app. simpl. f_equal. f_equal. lia.
Qed.

(** ** The loop computes the recurrence *)

Section SipLoopFacts.

Context {F : Type} `{PyFloatOps F}.

Lemma sip_loop_S (amount r_month : F) (m : nat) :
  sip_loop amount r_month (Z.of_nat (S m)) =
  sip_step amount r_month (sip_loop amount r_month (Z.of_nat m)) (Z.of_nat (S m)).
Proof.
  unfold sip_loop.
  replace (Z.of_nat (S m) + 1)%Z with ((Z.of_nat m + 1) + 1)%Z by lia.
  rewrite range_snoc by lia. rewrite fold_left_app. simpl.
  do 2 f_equal. lia.
Qed.

Lemma year_count_step (m : nat) :
  (Z.of_nat (S m) mod 12 = 0)%Z ->
  (S m / 12 = S (m / 12))%nat /\ (12 * (S m / 12) = S m)%nat /\
  (Z.of_nat (S m) / 12 = Z.of_nat (S m / 12))%Z.
Proof.
  intros Hmod.
  pose proof (Nat.div_mod_eq (S m) 12) as E1.
  pose proof (Nat.div_mod_eq m 12) as E2.
  pose proof (Nat.mod_upper_bound (S m) 12 ltac:(lia)) as B1.
  pose proof (Nat.mod_upper_bound m 12 ltac:(lia)) as B2.
  assert (Hz : (S m mod 12 = 0)%nat).
  { apply Nat2Z.inj. rewrite Nat2Z.inj_mod. exact Hmod. }
  rewrite Nat2Z.inj_div. repeat split; lia.
Qed.

Lemma year_count_stay (m : nat) :
  (Z.of_nat (S m) mod 12 <> 0)%Z -> (S m / 12 = m / 12)%nat.
Proof.
  intros Hmod.
  pose proof (Nat.div_mod_eq (S m) 12) as E1.
  pose proof (Nat.div_mod_eq m 12) as E2.
  pose proof (Nat.mod_upper_bound (S m) 12 ltac:(lia)) as B1.
  pose proof (Nat.mod_upper_bound m 12 ltac:(lia)) as B2.
  assert (Hz : (S m mod 12 <> 0)%nat).
  { intros E. apply Hmod. change 12%Z with (Z.of_nat 12).
    rewrite <- Nat2Z.inj_mod, E. reflexivity. }
  lia.
Qed.

(** After [m] months the loop holds the recurrence's [m]-th state, and has
    emitted one point per completed year, each with the state at the close
    of that year. *)
Lemma sip_loop_recurrence (amount r_month : F) (m : nat) :
  sip_loop amount r_month (Z.of_nat m) =
  (fst (sip_recurrence amount r_month m),
   snd (sip_recurrence amount r_month m),
   map (year_end_point amount r_month) (seq 1 (m / 12))).
Proof.
  induction m as [| m IH].
  - reflexivity.
  - rewrite sip_loop_S, IH. unfold sip_step.
    cbn [sip_recurrence].
    destruct (sip_recurrence amount r_month m) as [i v] eqn:Erec.
    cbn [fst snd].
    destruct (Z.eqb_spec (Z.of_nat (S m) mod 12) 0) as [E | E].
    + destruct (year_count_step m E) as (E1 & E2 & E3).
      rewrite E1, seq_S, map_app. cbn [map].
      do 3 f_equal.
      unfold year_end_point. rewrite E3.
      replace (1 + m / 12)%nat with (S m / 12)%nat by lia.
      rewrite E2. cbn [sip_recurrence]. rewrite Erec. reflexivity.
    + now rewrite (year_count_stay m E).
Qed.

Lemma sip_recurrence_invested (amount r_month : F) (m : nat) :
  fst (sip_recurrence amount r_month m) = repeated_sum amount m.
Proof.
  induction m as [| m IH]; [reflexivity |].
  cbn [sip_recurrence repeated_sum].
  destruct (sip_recurrence amount r_month m) as [i v].
  cbn [fst] in *. now rewrite IH.
Qed.

(** No month is iterated for a non-positive bound. *)
Lemma sip_loop_nonpos (amount r_month : F) (months_total : Z) :
  (months_total <= 0)%Z ->
  sip_loop amount r_month months_total = (of_int 0, of_int 0, []).
Proof.
  intros Hle. unfold sip_loop. now rewrite range_nil by lia.
Qed.

(** When no partial sum is rounded, the repeated sum is the product. *)
Lemma repeated_sum_exact (amount : F) (m : nat) :
  fmul amount (of_int 0) = of_int 0 ->
  (forall k : nat, (k < m)%nat ->
     fadd (fmul amount (of_int (Z.of_nat k))) amount =
     fmul amount (of_int (Z.of_nat (S k)))) ->
  repeated_sum amount m = fmul amount (of_int (Z.of_nat m)).
Proof.
  intros H0 Hstep. induction m as [| m IH].
  - symmetry. exact H0.
  - cbn [repeated_sum]. rewrite IH.
    + apply Hstep. lia.
    + intros k Hk. apply Hstep. lia.
Qed.

End SipLoopFacts.

(** ** Requests that satisfy the field constraints never raise *)

Lemma mapM_ok_map {A B : Type} (f : A -> result B) (g : A -> B) (xs : list A) :
  (forall x, In x xs -> f x = Ok (g x)) -> mapM f xs = Ok (map g xs).
Proof.
  induction xs as [| x rest IH]; intros Hf; [reflexivity |].
  cbn [mapM map]. rewrite (Hf x (or_introl eq_refl)). cbn [bind].
  rewrite IH; [reflexivity |].
  intros y Hy. apply Hf. now right.
Qed.

Lemma float_pow_pos (x y : R) : 0 < x -> float_pow x y = Ok (Rpower x y).
Proof. intros Hx. unfold float_pow. now rewrite py_pow_pos. Qed.

Lemma rate_monthly_pos (a : R) :
  0 < 1 + a -> rate_monthly a = Ok (Float (monthly_rate_of a)).
Proof. intros Ha. unfold rate_monthly. now rewrite py_pow_pos. Qed.

Lemma valid_base_pos (req : ProjectionRequest) :
  ProjectionRequest_valid req -> 0 < 1 + req_cagr req.
Proof. intros (_ & _ & Hc & _). lra. Qed.

Lemma one_plus_monthly_rate (a : R) :
  1 + monthly_rate_of a = Rpower (1 + a) (1 / 12).
Proof. unfold monthly_rate_of. lra. Qed.

(** [r] for a request within the constraints. *)
Lemma period_rate_valid (req : ProjectionRequest) :
  ProjectionRequest_valid req ->
  period_rate req = Ok (rate_of req) /\ 0 < 1 + rate_of req.
Proof.
  intros Hv. pose proof (valid_base_pos req Hv) as Hb.
  unfold period_rate, rate_of. destruct (req_frequency req).
  - rewrite rate_monthly_pos by assumption. split; [reflexivity |].
    rewrite one_plus_monthly_rate. apply Rpower_pos.
  - now split.
Qed.

Lemma r_month_valid (req : ProjectionRequest) :
  ProjectionRequest_valid req ->
  r_month req (rate_of req) = Ok (monthly_rate_of (req_cagr req)).
Proof.
  intros Hv. pose proof (valid_base_pos req Hv) as Hb.
  unfold r_month, rate_of. destruct (req_frequency req); [reflexivity |].
  now rewrite rate_monthly_pos.
Qed.

Lemma projection_totals_lump (req : ProjectionRequest) :
  ProjectionRequest_valid req -> req_type req = lump ->
  projection_totals req =
  Ok (req_amount req,
      req_amount req * Rpower (1 + rate_of req) (IZR (n_periods req)),
      map (lump_point (req_amount req) (rate_of req) (label_div req))
          (range 1 (py_round (req_years req) + 1))).
Proof.
  intros Hv Ht. destruct (period_rate_valid req Hv) as [Hr Hpos].
  unfold projection_totals. rewrite Hr, Ht. cbn [bind].
  rewrite float_pow_pos by assumption. cbn [bind].
  rewrite (mapM_ok_map _ (lump_point (req_amount req) (rate_of req) (label_div req))).
  - reflexivity.
  - intros y _. now rewrite float_pow_pos.
Qed.

Lemma projection_totals_sip (req : ProjectionRequest) :
  ProjectionRequest_valid req -> req_type req = sip ->
  projection_totals req =
  Ok (sip_loop (req_amount req) (monthly_rate_of (req_cagr req)) (months_total req)).
Proof.
  intros Hv Ht. destruct (period_rate_valid req Hv) as [Hr _].
  unfold projection_totals. rewrite Hr, Ht. cbn [bind].
  now rewrite r_month_valid.
Qed.

Lemma projection_of_totals (req : ProjectionRequest) invested value series :
  projection_totals req = Ok (invested, value, series) ->
  projection req =
  Ok {| total_invested := py_round_ndigits invested 2;
        final_value := py_round_ndigits value 2;
        profit := py_round_ndigits (value - invested) 2;
        cagr := req_cagr req;
        years := req_years req;
        series := series |}.
Proof. intros E. unfold projection. now rewrite E. Qed.

(** ** The CAGR endpoint, branch by branch *)

Lemma py_item_nat {A : Type} (xs : list A) (n : nat) (d : A) :
  (n < List.length xs)%nat -> py_item xs (Z.of_nat n) = Ok (nth n xs d).
Proof.
  intros Hn. unfold py_item.
  destruct (Z.ltb_spec (Z.of_nat n) 0) as [Hneg | _]; [lia |].
  destruct (Z.ltb_spec (Z.of_nat n) 0) as [Hneg | _]; [lia |].
  destruct (Z.leb_spec (Z.of_nat (List.length xs)) (Z.of_nat n)) as [Hbig | _]; [lia |].
  cbn [orb]. rewrite Nat2Z.id.
  now rewrite (nth_error_nth' xs d Hn).
Qed.

Lemma py_item_first {A : Type} (xs : list A) (d : A) :
  (0 < List.length xs)%nat -> py_item xs 0 = Ok (nth 0 xs d).
Proof. intros Hn. exact (py_item_nat xs 0 d Hn). Qed.

Lemma py_item_last {A : Type} (xs : list A) (d : A) :
  (0 < List.length xs)%nat ->
  py_item xs (-1) = Ok (nth (List.length xs - 1) xs d).
Proof.
  intros Hn. unfold py_item.
  change (-1 <? 0)%Z with true. cbv iota.
  destruct (Z.ltb_spec (Z.of_nat (List.length xs) + -1) 0) as [Hneg | _]; [lia |].
  destruct (Z.leb_spec (Z.of_nat (List.length xs))
              (Z.of_nat (List.length xs) + -1)) as [Hbig | _]; [lia |].
  cbn [orb].
  replace (Z.to_nat (Z.of_nat (List.length xs) + -1))
    with (List.length xs - 1)%nat by lia.
  rewrite (nth_error_nth' xs d); [reflexivity | lia].
Qed.

Lemma py_div_nonzero (x y : R) : y <> 0 -> py_div x y = Ok (x / y).
Proof. intros Hy. unfold py_div. now destruct (Req_dec_T y 0). Qed.

Lemma py_div_zero (x : R) : py_div x 0 = Raise ZeroDivisionError.
Proof. unfold py_div. destruct (Req_dec_T 0 0); [reflexivity | contradiction]. Qed.

(** A power with a positive exponent never raises. *)
Lemma py_pow_pos_exponent (x y : R) : 0 < y -> exists v, py_pow x y = Ok v.
Proof.
  intros Hy. unfold py_pow.
  destruct (Rlt_dec 0 x); [eauto |].
  destruct (Req_dec_T x 0).
  - destruct (Rlt_dec y 0); [lra |]. destruct (Req_dec_T y 0); eauto.
  - destruct (is_integer y); eauto.
Qed.

Lemma in_range_step (stop step i : Z) :
  (0 < step)%Z -> In i (range_step stop step) -> (0 <= i < stop)%Z.
Proof.
  intros Hstep Hin. unfold range_step in Hin.
  apply in_map_iff in Hin. destruct Hin as (k & <- & Hk).
  apply in_seq in Hk.
  assert (Hq : (Z.of_nat k < (stop + step - 1) / step)%Z) by lia.
  assert (Hs : (step * ((stop + step - 1) / step) <= stop + step - 1)%Z)
    by (apply Z.mul_div_le; lia).
  nia.
Qed.

Section GetCagr.

Variable market_chart : string -> string -> Z -> Response.
Variables coin_id currency : string.
Variable years : R.

Let r : Response := market_chart coin_id currency (py_int (years * 365)).

Lemma get_cagr_failed_request :
  status_code r <> 200%Z ->
  get_cagr market_chart coin_id years currency =
  Ok (CagrUnavailable coin_id years currency (text r)).
Proof.
  intros Hs. unfold get_cagr. fold r.
  destruct (Z.eqb_spec (status_code r) 200); [contradiction | reflexivity].
Qed.

Lemma get_cagr_few_samples :
  status_code r = 200%Z -> (List.length (prices r) < 2)%nat ->
  get_cagr market_chart coin_id years currency =
  Ok (CagrUnavailable coin_id years currency "Insufficient data").
Proof.
  intros Hs Hlen. unfold get_cagr. fold r. rewrite Hs. cbn [Z.eqb Pos.eqb negb].
  destruct (Z.ltb_spec (Z.of_nat (List.length (prices r))) 2); [reflexivity | lia].
Qed.

Lemma get_cagr_zero_start :
  status_code r = 200%Z -> (2 <= List.length (prices r))%nat ->
  snd (nth 0 (prices r) (0, 0)) = 0 ->
  get_cagr market_chart coin_id years currency = Raise ZeroDivisionError.
Proof.
  intros Hs Hlen Hzero. unfold get_cagr. fold r. rewrite Hs. cbn [Z.eqb Pos.eqb negb].
  destruct (Z.ltb_spec (Z.of_nat (List.length (prices r))) 2); [lia |].
  rewrite (py_item_first (prices r) (0, 0)) by lia. cbn [bind].
  rewrite (py_item_last (prices r) (0, 0)) by lia. cbn [bind].
  rewrite Hzero. now rewrite py_div_zero.
Qed.

Lemma get_cagr_estimate :
  status_code r = 200%Z -> (2 <= List.length (prices r))%nat ->
  snd (nth 0 (prices r) (0, 0)) <> 0 -> 0 < years ->
  exists v,
    py_pow (snd (nth (List.length (prices r) - 1) (prices r) (0, 0)) /
            snd (nth 0 (prices r) (0, 0))) (1 / years) = Ok v /\
    get_cagr market_chart coin_id years currency =
    Ok (CagrEstimate coin_id years currency (number_sub v 1)
          (snd (nth 0 (prices r) (0, 0)))
          (snd (nth (List.length (prices r) - 1) (prices r) (0, 0)))
          (map (strided_point (prices r))
               (range_step (Z.of_nat (List.length (prices r))) 365) ++
           [(py_int years,
             snd (nth (List.length (prices r) - 1) (prices r) (0, 0)))])).
Proof.
  intros Hs Hlen Hstart Hyears.
  assert (Hexp : 0 < 1 / years) by (apply Rdiv_lt_0_compat; lra).
  destruct (py_pow_pos_exponent
              (snd (nth (List.length (prices r) - 1) (prices r) (0, 0)) /
               snd (nth 0 (prices r) (0, 0))) (1 / years) Hexp) as [v Hv].
  exists v. split; [exact Hv |].
  unfold get_cagr. fold r. rewrite Hs. cbn [Z.eqb Pos.eqb negb].
  destruct (Z.ltb_spec (Z.of_nat (List.length (prices r))) 2); [lia |].
  rewrite (py_item_first (prices r) (0, 0)) by lia. cbn [bind].
  rewrite (py_item_last (prices r) (0, 0)) by lia. cbn [bind].
  rewrite py_div_nonzero by assumption. cbn [bind].
  rewrite py_div_nonzero by lra. cbn [bind].
  rewrite Hv. cbn [bind].
  rewrite (mapM_ok_map _ (strided_point (prices r))); [reflexivity |].
  intros i Hi. apply in_range_step in Hi; [| lia].
  rewrite Z.min_l by lia.
  rewrite <- (Z2Nat.id i) at 1 by lia.
  rewrite (py_item_nat (prices r) (Z.to_nat i) (0, 0)) by lia.
  reflexivity.
Qed.

End GetCagr.

(** ** Claims about the CAGR endpoint *)

(** C8.  With fewer than two price samples (none or one) in a successful
    reply, the estimation returns normally, with ["cagr": None] and the error
    ["Insufficient data"]; nothing is raised. *)
Theorem get_cagr_insufficient_data
    (market_chart : string -> string -> Z -> Response)
    (coin_id currency : string) (years : R) :
  status_code (market_chart coin_id currency (py_int (years * 365))) = 200%Z ->
  (List.length (prices (market_chart coin_id currency (py_int (years * 365)))) < 2)%nat ->
  exists res,
    get_cagr market_chart coin_id years currency = Ok res /\
    result_cagr res = None /\
    result_error res = Some "Insufficient data"%string.
Proof.
  intros Hs Hlen.
  exists (CagrUnavailable coin_id years currency "Insufficient data").
  split; [| split; reflexivity].
  now apply get_cagr_few_samples.
Qed.

Lemma get_cagr_insufficient_data_witness :
  exists res,
    get_cagr (fixed_reply one_sample_reply) "bitcoin" 5 "usd" = Ok res /\
    result_cagr res = None /\
    result_error res = Some "Insufficient data"%string.
Proof.
  apply (get_cagr_insufficient_data (fixed_reply one_sample_reply) "bitcoin" "usd" 5).
  - reflexivity.
  - simpl. lia.
Defined.

(** C4.  A reply whose first sample has the price 0.0 (with a second sample
    after it): the handler raises [ZeroDivisionError] at line 139 instead of
    returning a result with ["cagr": None] and a reason. *)
Theorem get_cagr_zero_start_price_raises :
  get_cagr (fixed_reply zero_start_reply) "bitcoin" 5 "usd" =
  Raise ZeroDivisionError.
Proof.
  apply get_cagr_zero_start; [reflexivity | simpl; lia | reflexivity].
Qed.

Lemma py_int_2_7 : py_int 2.7 = 2%Z.
Proof. apply py_int_nonneg; lra. Qed.

Lemma py_round_2_7 : py_round 2.7 = 3%Z.
Proof. apply py_round_near. lra. Qed.

Lemma doubling_reply_nonzero :
  snd (nth 0 (prices (fixed_reply doubling_reply "bitcoin"%string "usd"%string
                        (py_int (2.7 * 365)))) (0, 0)) <> 0.
Proof. simpl. lra. Qed.

(** C5, as stated, fails: for a horizon of 2.7 years the appended point is
    labelled year 2, while [round(2.7)] is 3. *)
Lemma get_cagr_final_year_not_rounded :
  (exists annual_cagr,
     get_cagr (fixed_reply doubling_reply) "bitcoin" 2.7 "usd" =
     Ok (CagrEstimate "bitcoin" 2.7 "usd" annual_cagr 100 200
           [(0%Z, 100); (2%Z, 200)])) /\
  py_round 2.7 = 3%Z.
Proof.
  split; [| exact py_round_2_7].
  destruct (get_cagr_estimate (fixed_reply doubling_reply) "bitcoin" "usd" 2.7)
    as (v & _ & Hres).
  - reflexivity.
  - simpl. lia.
  - exact doubling_reply_nonzero.
  - lra.
  - exists (number_sub v 1). rewrite Hres. clear Hres.
    cbn [fixed_reply doubling_reply prices List.length Nat.sub nth snd].
    rewrite py_int_2_7.
    change (range_step (Z.of_nat 2) 365) with [0%Z].
    cbn [map app]. unfold strided_point. cbn [Z.to_nat nth snd].
    replace (IZR 0 / 365) with (IZR 0) by lra.
    now rewrite py_round_IZR.
Qed.

(** ** Lump sums in exact arithmetic *)

Lemma in_range (lo hi y : Z) : In y (range lo hi) -> (lo <= y < hi)%Z.
Proof.
  unfold range. intros Hin. apply in_map_iff in Hin.
  destruct Hin as (k & <- & Hk). apply in_seq in Hk. lia.
Qed.

Lemma monthly_periods_are_years (a : R) (z : Z) :
  Rpower (1 + monthly_rate_of a) (IZR (z * 12)) = Rpower (1 + a) (IZR z).
Proof.
  rewrite one_plus_monthly_rate, Rpower_mult. f_equal.
  rewrite mult_IZR. lra.
Qed.

(** Whatever the frequency, the point of year [y >= 0] is
    [amount * (1 + a) ^ y]. *)
Lemma lump_point_annual (req : ProjectionRequest) (y : Z) :
  0 < 1 + req_cagr req -> (0 <= y)%Z ->
  lump_point (req_amount req) (rate_of req) (label_div req) y =
  annual_point (req_amount req) (req_cagr req) y.
Proof.
  intros Hb Hy. unfold lump_point, annual_point, rate_of, label_div.
  f_equal. f_equal.
  destruct (req_frequency req).
  - rewrite monthly_periods_are_years. now apply Rpower_IZR_nat.
  - rewrite Z.mul_1_r. now apply Rpower_IZR_nat.
Qed.

Lemma lump_series_annual (req : ProjectionRequest) :
  0 < 1 + req_cagr req ->
  map (lump_point (req_amount req) (rate_of req) (label_div req))
      (range 1 (py_round (req_years req) + 1)) =
  map (annual_point (req_amount req) (req_cagr req))
      (range 1 (py_round (req_years req) + 1)).
Proof.
  intros Hb. apply map_ext_in. intros y Hy. apply in_range in Hy.
  apply lump_point_annual; [assumption | lia].
Qed.

Lemma scenario_a_valid : ProjectionRequest_valid scenario_a.
Proof. unfold ProjectionRequest_valid, scenario_a; simpl; lra. Qed.

(** The final value, unlike the series, depends on the frequency when the
    horizon is not a whole number of years: 0.49 years are 6 months but 0
    years. *)
Lemma py_round_ndigits_hundredths (z : Z) :
  py_round_ndigits (IZR z / 100) 2 = IZR z / 100.
Proof.
  unfold py_round_ndigits.
  replace (IZR z / 100 * 10 ^ 2) with (IZR z) by (simpl; lra).
  rewrite py_round_IZR. simpl. lra.
Qed.

Lemma py_round_ndigits_IZR (z : Z) : py_round_ndigits (IZR z) 2 = IZR z.
Proof.
  unfold py_round_ndigits.
  replace (IZR z * 10 ^ 2) with (IZR (z * 100)) by (rewrite mult_IZR; simpl; lra).
  rewrite py_round_IZR, mult_IZR. simpl. lra.
Qed.

Lemma py_round_nonneg (x : R) : 0 <= x -> (0 <= py_round x)%Z.
Proof.
  intros Hx. unfold py_round.
  assert (Hf : (0 <= Zfloor x)%Z) by (apply Zfloor_lub; simpl; lra).
  destruct (Rlt_dec _ _); [lia |].
  destruct (Rlt_dec _ _); [lia |].
  destruct (Z.even _); lia.
Qed.

(** A number that rounds to zero is at most one half. *)
Lemma py_round_zero_bound (x : R) : py_round x = 0%Z -> - (1 / 2) <= x <= 1 / 2.
Proof.
  intros E. pose proof (py_round_error x) as Herr. rewrite E in Herr. lra.
Qed.




(** ** The conversion of the annual rate *)

Lemma twelfth_not_integer : is_integer (1 / 12) = false.
Proof.
  unfold is_integer.
  replace (Zfloor (1 / 12)) with 0%Z by (symmetry; apply Zfloor_eq; lra).
  destruct (Req_dec_T (1 / 12) 0); [lra | reflexivity].
Qed.

(** C6.  The conversion [(1 + a) ** (1 / 12) - 1] has no guard and raises
    nothing, whatever [a] is.  Whenever [1 + a < 0] the power, and with it
    the rate, is a complex number.  Within the field's range
    [-0.99 <= a <= 10] the base [1 + a] is at least 0.01, so the base is
    never negative there and the conversion returns a float. *)
Theorem rate_conversion_raises_nothing :
  (forall a : R, exists v, rate_monthly a = Ok v) /\
  (forall a : R, 1 + a < 0 -> rate_monthly a = Ok Complex) /\
  (forall a : R, -0.99 <= a <= 10 ->
     0.01 <= 1 + a /\ exists r, rate_monthly a = Ok (Float r)).
Proof.
  assert (Hneg : forall a : R, 1 + a < 0 -> rate_monthly a = Ok Complex).
  { intros a Ha. unfold rate_monthly, py_pow.
    destruct (Rlt_dec 0 (1 + a)); [lra |].
    destruct (Req_dec_T (1 + a) 0); [lra |].
    now rewrite twelfth_not_integer. }
  split; [| split].
  - intros a. destruct (Rlt_dec 0 (1 + a)) as [Hpos | Hnpos].
    + exists (Float (Rpower (1 + a) (1 / 12) - 1)).
      unfold rate_monthly. now rewrite py_pow_pos.
    + destruct (Req_dec_T (1 + a) 0) as [Hz | Hnz].
      * exists (Float (0 - 1)). unfold rate_monthly, py_pow.
        destruct (Rlt_dec 0 (1 + a)); [contradiction |].
        destruct (Req_dec_T (1 + a) 0); [| contradiction].
        destruct (Rlt_dec (1 / 12) 0); [lra |].
        destruct (Req_dec_T (1 / 12) 0); [lra | reflexivity].
      * exists Complex. apply Hneg. lra.
  - exact Hneg.
  - intros a [Hlo Hhi]. split; [lra |].
    exists (Rpower (1 + a) (1 / 12) - 1).
    unfold rate_monthly. rewrite py_pow_pos by lra. reflexivity.
Qed.

(** C6, as stated, fails: for [a = -2], where [1 + a < 0], the conversion
    raises nothing; the power of the negative base is a complex number. *)
Lemma rate_conversion_negative_base_not_an_error :
  1 + -2 < 0 /\ rate_monthly (-2) = Ok Complex.
Proof.
  split; [lra |].
  unfold rate_monthly, py_pow.
  destruct (Rlt_dec 0 (1 + -2)); [lra |].
  destruct (Req_dec_T (1 + -2) 0); [lra |].
  now rewrite twelfth_not_integer.
Qed.

(** ** A horizon of zero periods *)

Lemma zero_periods_no_years (req : ProjectionRequest) :
  ProjectionRequest_valid req -> n_periods req = 0%Z ->
  py_round (req_years req) = 0%Z.
Proof.
  intros (_ & [Hy _] & _) Hn. unfold n_periods in Hn.
  destruct (req_frequency req); [| exact Hn].
  apply py_round_zero_bound in Hn.
  apply py_round_near. simpl. lra.
Qed.

Lemma zero_periods_no_months (req : ProjectionRequest) :
  n_periods req = 0%Z -> months_total req = 0%Z.
Proof.
  intros Hn. unfold months_total. rewrite Hn. now destruct (req_frequency req).
Qed.

Lemma py_round_ndigits_zero : py_round_ndigits 0 2 = 0.
Proof. exact (py_round_ndigits_IZR 0). Qed.

(** C3 (amended).  When the horizon resolves to zero periods the engine
    returns, without raising, an empty series and a profit of 0; in periodic
    mode the invested total and the final value are 0, in lump-sum mode both
    are the deposit (rounded to 2 digits). *)
Theorem zero_periods_response (req : ProjectionRequest) :
  ProjectionRequest_valid req -> n_periods req = 0%Z ->
  exists resp,
    projection req = Ok resp /\
    series resp = [] /\
    profit resp = 0 /\
    match req_type req with
    | sip => total_invested resp = 0 /\ final_value resp = 0
    | lump =>
        total_invested resp = py_round_ndigits (req_amount req) 2 /\
        final_value resp = py_round_ndigits (req_amount req) 2
    end.
Proof.
  intros Hv Hn. destruct (req_type req) eqn:Ht.
  - pose proof (projection_totals_sip req Hv Ht) as E.
    rewrite (zero_periods_no_months req Hn) in E.
    rewrite sip_loop_nonpos in E by lia.
    apply projection_of_totals in E.
    eexists. split; [exact E |].
    cbn [series profit total_invested final_value of_int exact_ops].
    replace (0 - 0) with 0 by lra.
    rewrite py_round_ndigits_zero. auto.
  - pose proof (projection_totals_lump req Hv Ht) as E.
    destruct (period_rate_valid req Hv) as [_ Hpos].
    rewrite Hn, (zero_periods_no_years req Hv Hn) in E.
    rewrite Rpower_O in E by exact Hpos.
    rewrite range_nil in E by lia.
    apply projection_of_totals in E.
    eexists. split; [exact E |].
    cbn [series profit total_invested final_value map].
    replace (req_amount req * 1 - req_amount req) with 0 by lra.
    replace (req_amount req * 1) with (req_amount req) by lra.
    rewrite py_round_ndigits_zero. auto.
Qed.

Lemma short_sip_valid : ProjectionRequest_valid short_sip.
Proof. unfold ProjectionRequest_valid, short_sip; simpl; lra. Qed.

Lemma short_sip_zero_periods : n_periods short_sip = 0%Z.
Proof.
  unfold n_periods, short_sip; simpl. apply py_round_near. lra.
Qed.

Lemma zero_periods_response_witness :
  exists resp,
    projection short_sip = Ok resp /\
    series resp = [] /\
    profit resp = 0 /\
    total_invested resp = 0 /\ final_value resp = 0.
Proof.
  apply (zero_periods_response short_sip).
  - exact short_sip_valid.
  - exact short_sip_zero_periods.
Defined.

Lemma short_lump_valid : ProjectionRequest_valid short_lump.
Proof. unfold ProjectionRequest_valid, short_lump; simpl; lra. Qed.

Lemma short_lump_zero_periods : n_periods short_lump = 0%Z.
Proof.
  unfold n_periods, short_lump; simpl. apply py_round_near. lra.
Qed.

(** C3, as stated, fails in lump-sum mode: 1000 for 0.4 years, compounded
    yearly, is zero periods, and the response reports 1000 invested and a
    final value of 1000, not 0. *)
Lemma zero_periods_lump_keeps_deposit :
  n_periods short_lump = 0%Z /\
  exists resp,
    projection short_lump = Ok resp /\
    series resp = [] /\
    total_invested resp = 1000 /\
    final_value resp = 1000.
Proof.
  split; [exact short_lump_zero_periods |].
  pose proof (projection_totals_lump short_lump short_lump_valid eq_refl) as E.
  destruct (period_rate_valid short_lump short_lump_valid) as [_ Hpos].
  rewrite short_lump_zero_periods in E.
  rewrite (zero_periods_no_years short_lump short_lump_valid
             short_lump_zero_periods) in E.
  rewrite Rpower_O in E by exact Hpos.
  rewrite range_nil in E by lia.
  apply projection_of_totals in E.
  eexists. split; [exact E |].
  cbn [series total_invested final_value map short_lump req_amount].
  replace (1000 * 1) with (IZR 1000) by lra.
  rewrite py_round_ndigits_IZR. auto.
Qed.

(** ** The periodic mode *)

Lemma months_total_sip_months (req : ProjectionRequest) :
  ProjectionRequest_valid req ->
  months_total req = Z.of_nat (sip_months req).
Proof.
  intros (_ & [Hy _] & _). unfold months_total, sip_months, n_periods.
  destruct (req_frequency req).
  - rewrite Z2Nat.id; [reflexivity |]. apply py_round_nonneg. lra.
  - rewrite Nat2Z.inj_mul, Z2Nat.id; [reflexivity |]. apply py_round_nonneg. lra.
Qed.

(** In exact arithmetic the repeated sum is the product. *)
Lemma repeated_sum_real (amount : R) (m : nat) :
  repeated_sum amount m = amount * IZR (Z.of_nat m).
Proof.
  change (repeated_sum amount m = fmul amount (of_int (Z.of_nat m))).
  apply (repeated_sum_exact amount m).
  - cbn [fmul of_int exact_ops]. lra.
  - intros k _. cbn [fmul fadd of_int exact_ops].
    rewrite Nat2Z.inj_succ, succ_IZR. lra.
Qed.

Lemma yearly_sip_valid : ProjectionRequest_valid yearly_sip.
Proof. unfold ProjectionRequest_valid, yearly_sip; simpl; lra. Qed.

Lemma yearly_sip_months : months_total yearly_sip = 12%Z.
Proof.
  unfold months_total, n_periods, yearly_sip; simpl.
  replace (py_round 1.4) with 1%Z by (symmetry; apply py_round_near; lra).
  reflexivity.
Qed.

(** C2, as stated, fails for the yearly frequency: for 1.4 years the loop
    runs 12 months (1200 invested), while [round(1.4 * 12)] is 17. *)
Lemma sip_yearly_months_not_rounded_product :
  months_total yearly_sip = 12%Z /\
  py_round (req_years yearly_sip * 12) = 17%Z /\
  exists value series,
    projection_totals yearly_sip = Ok (1200, value, series).
Proof.
  split; [exact yearly_sip_months |].
  split; [unfold yearly_sip; simpl; apply py_round_near; lra |].
  pose proof (projection_totals_sip yearly_sip yearly_sip_valid eq_refl) as E.
  rewrite yearly_sip_months in E.
  change 12%Z with (Z.of_nat 12) in E.
  rewrite sip_loop_recurrence, sip_recurrence_invested, repeated_sum_real in E.
  rewrite E. eexists. eexists. f_equal. f_equal. f_equal.
  unfold yearly_sip; simpl. lra.
Qed.

(** In exact arithmetic the invested total after [m] months is
    [amount * m]. *)
Lemma sip_invested_real (amount r_month : R) (m : nat) :
  fst (fst (sip_loop amount r_month (Z.of_nat m))) = amount * IZR (Z.of_nat m).
Proof.
  rewrite sip_loop_recurrence. cbn [fst].
  now rewrite sip_recurrence_invested, repeated_sum_real.
Qed.

(** C9.  After any number [m] of iterated months the invested total is the
    sum of [m] contributions, added one at a time from [0.0]: so it is in
    binary64, and in any arithmetic the loop is run with.  In exact
    arithmetic that sum is [amount * m]. *)
Theorem sip_invested_is_sum_of_contributions :
  (forall (F : Type) (ops : PyFloatOps F) (amount r_month : F) (m : nat),
     fst (fst (sip_loop amount r_month (Z.of_nat m))) = repeated_sum amount m) /\
  (forall (amount r_month : R) (m : nat),
     fst (fst (sip_loop amount r_month (Z.of_nat m))) = amount * INR m).
Proof.
  split.
  - intros F ops amount r_month m.
    rewrite sip_loop_recurrence. cbn [fst]. apply sip_recurrence_invested.
  - intros amount r_month m.
    rewrite sip_invested_real. now rewrite INR_IZR_INZ.
Qed.

(** C9, as stated, fails in binary64: twelve contributions of 0.1 add up to
    1.2, while [0.1 * 12] is 1.2000000000000002. *)
Lemma sip_invested_binary64_rounds :
  fst (fst (sip_loop tenth r_month_8_percent 12)) = 0x1.3333333333333p+0%float /\
  fmul tenth (of_int 12) = 0x1.3333333333334p+0%float /\
  PrimFloat.eqb (fst (fst (sip_loop tenth r_month_8_percent 12)))
                (fmul tenth (of_int 12)) = false.
Proof. vm_compute. repeat split. Qed.

(** ** The response boundary *)

Lemma py_round_ndigits_near (x : R) (z : Z) :
  IZR z - 1 / 2 < x * 100 < IZR z + 1 / 2 ->
  py_round_ndigits x 2 = IZR z / 100.
Proof.
  intros Hx. unfold py_round_ndigits.
  replace (x * 10 ^ 2) with (x * 100) by (simpl; lra).
  rewrite (py_round_near (x * 100) z Hx). simpl. lra.
Qed.

Lemma cent_lump_valid : ProjectionRequest_valid cent_lump.
Proof. unfold ProjectionRequest_valid, cent_lump; simpl; lra. Qed.

(** C7, as stated, fails on the returned fields: a deposit of 1.004 doubling
    in a year is reported with [total_invested = 1.0], [final_value = 2.01]
    and [profit = 1.0], and [2.01 - 1.0] is not [1.0]. *)
Lemma profit_is_not_difference_of_rounded_totals :
  exists resp,
    projection cent_lump = Ok resp /\
    total_invested resp = 1 /\
    final_value resp = 2.01 /\
    profit resp = 1 /\
    profit resp <> final_value resp - total_invested resp.
Proof.
  pose proof (projection_totals_lump cent_lump cent_lump_valid eq_refl) as E.
  apply projection_of_totals in E.
  eexists. split; [exact E |].
  cbn [total_invested final_value profit]. unfold rate_of, n_periods.
  cbn [cent_lump req_frequency req_amount req_cagr req_years].
  rewrite py_round_IZR, Rpower_1 by lra.
  assert (Hi : py_round_ndigits 1.004 2 = 1).
  { rewrite (py_round_ndigits_near 1.004 100) by lra. lra. }
  assert (Hf : py_round_ndigits (1.004 * (1 + 1)) 2 = 2.01).
  { rewrite (py_round_ndigits_near (1.004 * (1 + 1)) 201) by lra. lra. }
  assert (Hp : py_round_ndigits (1.004 * (1 + 1) - 1.004) 2 = 1).
  { rewrite (py_round_ndigits_near (1.004 * (1 + 1) - 1.004) 100) by lra. lra. }
  rewrite Hi, Hf, Hp. repeat split; lra.
Qed.

Lemma sip_series_valid (req : ProjectionRequest) :
  ProjectionRequest_valid req -> req_type req = sip ->
  exists invested value,
    projection_totals req = Ok (invested, value, full_precision_series req).
Proof.
  intros Hv Ht. rewrite projection_totals_sip by assumption.
  rewrite (months_total_sip_months req Hv), sip_loop_recurrence.
  unfold full_precision_series. rewrite Ht. eauto.
Qed.

Lemma lump_series_valid (req : ProjectionRequest) :
  ProjectionRequest_valid req -> req_type req = lump ->
  exists invested value,
    projection_totals req = Ok (invested, value, full_precision_series req).
Proof.
  intros Hv Ht. rewrite projection_totals_lump by assumption.
  unfold full_precision_series. rewrite Ht. eauto.
Qed.

(** ** The scenarios and properties of the specification's section 8 *)

(** Scenario A: 1000 for 5 years at 10%, monthly, ends at 1610.51. *)
Lemma scenario_a_response :
  exists resp,
    projection scenario_a = Ok resp /\
    total_invested resp = 1000 /\
    final_value resp = 1610.51 /\
    profit resp = 610.51.
Proof.
  pose proof (projection_totals_lump scenario_a scenario_a_valid eq_refl) as E.
  apply projection_of_totals in E.
  eexists. split; [exact E |].
  cbn [total_invested final_value profit]. unfold rate_of, n_periods.
  cbn [scenario_a req_frequency req_amount req_cagr req_years].
  replace (py_round (5 * 12)) with (5 * 12)%Z
    by (symmetry; apply py_round_near; simpl; lra).
  rewrite monthly_periods_are_years, Rpower_IZR_nat by (lra || lia).
  change (Z.to_nat 5) with 5%nat.
  replace (1000 * (1 + 0.10) ^ 5) with (IZR 161051 / 100) by (simpl; lra).
  replace (IZR 161051 / 100 - 1000) with (IZR 61051 / 100) by lra.
  rewrite !py_round_ndigits_hundredths.
  replace 1000 with (IZR 1000) by reflexivity.
  rewrite py_round_ndigits_IZR.
  repeat split; lra.
Qed.

(** Scenario B, run on binary64 floats: 36 months of 100.0 at the monthly
    rate of 8% a year give 3600.0 invested, the value 4036.536907034468, and
    one point per year. *)
Lemma scenario_b_binary64 :
  sip_loop hundred r_month_8_percent 36 =
  (0x1.c2p+11, 0x1.f8912e57a9411p+11,
   [Build_ProjectionPoint 1 0x1.2cp+10 0x1.36d8df9c13bcfp+10;
    Build_ProjectionPoint 2 0x1.2cp+11 0x1.4347f2cb47ba4p+11;
    Build_ProjectionPoint 3 0x1.c2p+11 0x1.f8912e57a9411p+11])%float.
Proof. vm_compute. reflexivity. Qed.

Lemma Rpower_base_1 (y : R) : Rpower 1 y = 1.
Proof. unfold Rpower. rewrite ln_1, Rmult_0_r. apply exp_0. Qed.

(** With a rate of zero a lump sum ends where it started, whatever the
    horizon and the frequency. *)
Lemma lump_zero_rate (req : ProjectionRequest) :
  ProjectionRequest_valid req -> req_type req = lump -> req_cagr req = 0 ->
  exists resp,
    projection req = Ok resp /\ final_value resp = total_invested resp.
Proof.
  intros Hv Ht Hc.
  pose proof (projection_totals_lump req Hv Ht) as E.
  apply projection_of_totals in E.
  eexists. split; [exact E |].
  cbn [total_invested final_value]. f_equal.
  assert (Hr : 1 + rate_of req = 1).
  { unfold rate_of. destruct (req_frequency req).
    - rewrite one_plus_monthly_rate, Hc.
      replace (1 + 0) with 1 by lra. apply Rpower_base_1.
    - lra. }
  rewrite Hr, Rpower_base_1. lra.
Qed.

(** For a non-negative annual rate the values of a lump sum's series do not
    decrease from one year to a later one. *)
Lemma lump_series_monotone (amount a : R) (y1 y2 : Z) :
  0 < amount -> 0 <= a -> (0 <= y1 <= y2)%Z ->
  value (annual_point amount a y1) <= value (annual_point amount a y2).
Proof.
  intros Hamount Ha Hy. unfold annual_point. cbn [value].
  apply Rmult_le_compat_l; [lra |].
  apply Rle_pow; [lra | lia].
Qed.

(** * Further properties of the code *)

(** ** The accumulation loop in exact arithmetic *)

Lemma sip_recurrence_value_closed (amount r : R) (m : nat) :
  snd (sip_recurrence amount r m) * r = amount * ((1 + r) ^ m - 1).
Proof.
  induction m as [| m IH].
  - cbn [sip_recurrence snd of_int exact_ops pow]. lra.
  - cbn [sip_recurrence].
    destruct (sip_recurrence amount r m) as [i v].
    cbn [snd fadd fmul of_int exact_ops] in *.
    rewrite <- tech_pow_Rmult.
    transitivity (v * r * (1 + r) + amount * r); [ring |].
    rewrite IH. ring.
Qed.

Lemma py_round_le (x y : R) : x <= y -> (py_round x <= py_round y)%Z.
Proof.
  intros Hle. destruct (Rle_lt_or_eq_dec x y Hle) as [Hlt | ->]; [| lia].
  pose proof (py_round_error x) as Hx. pose proof (py_round_error y) as Hy.
  assert (H : IZR (py_round x) < IZR (py_round y + 1))
    by (rewrite plus_IZR; lra).
  apply lt_IZR in H. lia.
Qed.

(** The recurrence keeps the value above the invested total for a
    non-negative rate and below it for a non-positive one. *)
Lemma sip_recurrence_value_vs_invested (amount r : R) (m : nat) :
  0 <= amount -> 0 < 1 + r ->
  0 <= snd (sip_recurrence amount r m) /\
  (0 <= r -> fst (sip_recurrence amount r m) <= snd (sip_recurrence amount r m)) /\
  (r <= 0 -> snd (sip_recurrence amount r m) <= fst (sip_recurrence amount r m)).
Proof.
  intros Ha Hr. induction m as [| m IH].
  - cbn [sip_recurrence fst snd of_int exact_ops]. lra.
  - cbn [sip_recurrence].
    destruct (sip_recurrence amount r m) as [i v].
    cbn [fst snd fadd fmul of_int exact_ops] in *.
    destruct IH as (Hv & Hpos & Hneg).
    split; [nra |]. split; intros Hs.
    + specialize (Hpos Hs). nra.
    + specialize (Hneg Hs). nra.
Qed.

(** X1.  In exact arithmetic, the loop run for [m] months at a monthly rate
    [r <> 0] ends with the future value of an annuity,
    [value = amount * ((1 + r)^m - 1) / r], and with
    [invested = amount * m]. *)
Theorem sip_loop_is_annuity_future_value (amount r : R) (m : nat) :
  r <> 0 ->
  exists points,
    sip_loop amount r (Z.of_nat m) =
    (amount * INR m, amount * ((1 + r) ^ m - 1) / r, points).
Proof.
  intros Hr. rewrite sip_loop_recurrence. eexists.
  f_equal. f_equal.
  - rewrite sip_recurrence_invested, repeated_sum_real.
    now rewrite INR_IZR_INZ.
  - rewrite <- sip_recurrence_value_closed. field. exact Hr.
Qed.

Lemma sip_loop_is_annuity_future_value_witness :
  exists points,
    sip_loop 100 0.01 (Z.of_nat 24) =
    (100 * INR 24, 100 * ((1 + 0.01) ^ 24 - 1) / 0.01, points).
Proof.
  apply (sip_loop_is_annuity_future_value 100 0.01 24). lra.
Defined.

(** X2.  In exact arithmetic, after any number of months the loop's value
    is at least the invested total for a monthly rate [r >= 0], at most the
    invested total for [-1 < r <= 0], and equal to it for [r = 0]. *)
Theorem sip_value_against_invested (amount r : R) (m : nat) :
  0 <= amount -> -1 < r ->
  exists invested value points,
    sip_loop amount r (Z.of_nat m) = (invested, value, points) /\
    (0 <= r -> invested <= value) /\
    (r <= 0 -> value <= invested) /\
    (r = 0 -> value = invested).
Proof.
  intros Ha Hr. rewrite sip_loop_recurrence.
  destruct (sip_recurrence_value_vs_invested amount r m Ha ltac:(lra))
    as (_ & Hpos & Hneg).
  do 3 eexists. split; [reflexivity |].
  split; [exact Hpos |]. split; [exact Hneg |].
  intros Hz. specialize (Hpos ltac:(lra)). specialize (Hneg ltac:(lra)). lra.
Qed.

Lemma sip_value_against_invested_witness :
  exists invested value points,
    sip_loop 100 0.01 (Z.of_nat 24) = (invested, value, points) /\
    (0 <= 0.01 -> invested <= value) /\
    (0.01 <= 0 -> value <= invested) /\
    (0.01 = 0 -> value = invested).
Proof.
  apply (sip_value_against_invested 100 0.01 24); lra.
Defined.

Lemma flat_sip_valid : ProjectionRequest_valid flat_sip.
Proof. unfold ProjectionRequest_valid, flat_sip; simpl; lra. Qed.

Lemma year_end_point_fields {F : Type} `{PyFloatOps F} (amount r : F) (k : nat) :
  year (year_end_point amount r k) = Z.of_nat k /\
  invested (year_end_point amount r k) = fst (sip_recurrence amount r (12 * k)) /\
  value (year_end_point amount r k) = snd (sip_recurrence amount r (12 * k)).
Proof.
  unfold year_end_point.
  destruct (sip_recurrence amount r (12 * k)) as [i v]. now cbn.
Qed.

Lemma projection_series_valid (req : ProjectionRequest) :
  ProjectionRequest_valid req ->
  exists resp,
    projection req = Ok resp /\ series resp = full_precision_series req.
Proof.
  intros Hv.
  assert (exists i v, projection_totals req = Ok (i, v, full_precision_series req))
    as (i & v & E).
  { destruct (req_type req) eqn:Ht.
    - now apply sip_series_valid.
    - now apply lump_series_valid. }
  apply projection_of_totals in E. eexists. split; [exact E | reflexivity].
Qed.

(** ** The lump-sum mode: order of the series, whole-year horizons *)

Lemma StronglySorted_map_seq {A : Type} (rel : A -> A -> Prop) (g : nat -> A)
    (start len : nat) :
  (forall i j : nat, (start <= i <= j)%nat -> rel (g i) (g j)) ->
  StronglySorted rel (map g (seq start len)).
Proof.
  revert start. induction len as [| len IH]; intros start Hmono.
  - constructor.
  - cbn [seq map]. constructor.
    + apply IH. intros i j Hij. apply Hmono. lia.
    + apply Forall_forall. intros x Hx. apply in_map_iff in Hx.
      destruct Hx as (j & <- & Hj). apply in_seq in Hj.
      apply Hmono. lia.
Qed.

(** X4.  For a lump sum at a non-negative annual rate the values of the
    returned series never decrease from a year to a later one. *)
Theorem lump_series_values_nondecreasing (req : ProjectionRequest) :
  ProjectionRequest_valid req -> req_type req = lump -> 0 <= req_cagr req ->
  exists resp,
    projection req = Ok resp /\ values_nondecreasing (series resp).
Proof.
  intros Hv Ht Hc. pose proof (valid_base_pos req Hv) as Hb.
  pose proof Hv as (Hamount & _).
  destruct (projection_series_valid req Hv) as (resp & E & Hs).
  exists resp. split; [exact E |]. rewrite Hs.
  unfold full_precision_series. rewrite Ht.
  rewrite lump_series_annual by exact Hb.
  unfold values_nondecreasing, range. rewrite map_map.
  apply StronglySorted_map_seq. intros i j Hij.
  apply lump_series_monotone; [lra | exact Hc | lia].
Qed.

Lemma lump_series_values_nondecreasing_witness :
  exists resp,
    projection scenario_a = Ok resp /\ values_nondecreasing (series resp).
Proof.
  apply (lump_series_values_nondecreasing scenario_a).
  - unfold ProjectionRequest_valid, scenario_a; simpl; lra.
  - reflexivity.
  - simpl. lra.
Defined.

Lemma n_periods_whole_years (req : ProjectionRequest) (k : Z) :
  req_years req = IZR k -> n_periods req = (k * label_div req)%Z.
Proof.
  intros Hy. unfold n_periods, label_div. rewrite Hy.
  destruct (req_frequency req).
  - rewrite <- mult_IZR. apply py_round_IZR.
  - rewrite py_round_IZR. lia.
Qed.

Lemma sip_months_whole_years (req : ProjectionRequest) (k : Z) :
  req_years req = IZR k -> (0 <= k)%Z ->
  sip_months req = (12 * Z.to_nat k)%nat.
Proof.
  intros Hy Hk. unfold sip_months. rewrite Hy.
  destruct (req_frequency req).
  - rewrite <- mult_IZR, py_round_IZR. lia.
  - rewrite py_round_IZR. lia.
Qed.

(** X5.  When the horizon is a whole number [k >= 1] of years, in either
    mode and with either frequency, the series ends with the point of year
    [k], and the reported totals are that point's figures rounded to 2
    digits. *)
Theorem whole_year_horizon_ends_at_last_point (req : ProjectionRequest) (k : Z) :
  ProjectionRequest_valid req -> req_years req = IZR k -> (1 <= k)%Z ->
  exists resp front p,
    projection req = Ok resp /\
    series resp = front ++ [p] /\
    year p = k /\
    total_invested resp = py_round_ndigits (invested p) 2 /\
    final_value resp = py_round_ndigits (value p) 2.
Proof.
  intros Hv Hy Hk. destruct (req_type req) eqn:Ht.
  - pose proof (projection_totals_sip req Hv Ht) as E.
    rewrite (months_total_sip_months req Hv), sip_loop_recurrence in E.
    rewrite (sip_months_whole_years req k Hy ltac:(lia)) in E.
    replace (12 * Z.to_nat k / 12)%nat with (S (Z.to_nat k - 1)) in E
      by (rewrite Nat.mul_comm, Nat.div_mul; lia).
    rewrite seq_S, map_app in E. cbn [map] in E.
    replace (1 + (Z.to_nat k - 1))%nat with (Z.to_nat k) in E by lia.
    apply projection_of_totals in E.
    destruct (year_end_point_fields (req_amount req)
                (monthly_rate_of (req_cagr req)) (Z.to_nat k)) as (Ey & Ei & Ev).
    eexists. eexists. eexists.
    split; [exact E |]. cbn [series total_invested final_value].
    split; [reflexivity |].
    rewrite Ey, Ei, Ev. split; [lia | auto].
  - pose proof (projection_totals_lump req Hv Ht) as E.
    rewrite (n_periods_whole_years req k Hy) in E.
    rewrite Hy, py_round_IZR in E.
    rewrite range_snoc, map_app in E by lia. cbn [map] in E.
    apply projection_of_totals in E.
    eexists. eexists. eexists.
    split; [exact E |]. cbn [series total_invested final_value].
    split; [reflexivity |].
    unfold lump_point. cbn [year invested value]. auto.
Qed.

Lemma whole_year_horizon_ends_at_last_point_witness :
  exists resp front p,
    projection scenario_b = Ok resp /\
    series resp = front ++ [p] /\
    year p = 3%Z /\
    total_invested resp = py_round_ndigits (invested p) 2 /\
    final_value resp = py_round_ndigits (value p) 2.
Proof.
  apply (whole_year_horizon_ends_at_last_point scenario_b 3).
  - unfold ProjectionRequest_valid, scenario_b; simpl; lra.
  - reflexivity.
  - lia.
Defined.

(** ** The CAGR endpoint: refusals and total loss *)

(** X6.  When the provider's reply is not a 200, the handler returns the
    reply's text as the error, with ["cagr": None], whatever the reply holds
    otherwise; it does not raise and does not look at the prices. *)
Theorem get_cagr_reports_refused_request
    (market_chart : string -> string -> Z -> Response)
    (coin_id currency : string) (years : R) :
  status_code (market_chart coin_id currency (py_int (years * 365))) <> 200%Z ->
  exists res,
    get_cagr market_chart coin_id years currency = Ok res /\
    result_cagr res = None /\
    result_series res = None /\
    result_error res =
      Some (text (market_chart coin_id currency (py_int (years * 365)))).
Proof.
  intros Hs. eexists. split.
  - now apply get_cagr_failed_request.
  - repeat split.
Qed.

Lemma get_cagr_reports_refused_request_witness :
  exists res,
    get_cagr (fixed_reply refused_reply) "bitcoin" 5 "usd" = Ok res /\
    result_cagr res = None /\
    result_series res = None /\
    result_error res = Some "Too Many Requests"%string.
Proof.
  apply (get_cagr_reports_refused_request (fixed_reply refused_reply)
           "bitcoin" "usd" 5).
  simpl. lia.
Defined.

Lemma range_step_365 (len : nat) :
  range_step (Z.of_nat len) 365 =
  map (fun k => (365 * Z.of_nat k)%Z) (seq 0 (strided_count len)).
Proof.
  unfold range_step, strided_count. f_equal. f_equal.
  replace (Z.of_nat len + 365 - 1)%Z with (Z.of_nat (len + 364)) by lia.
  change 365%Z with (Z.of_nat 365).
  now rewrite <- Nat2Z.inj_div, Nat2Z.id.
Qed.

(** X9.  A series that ends at the price 0 (from a non-zero first price) is
    a total loss: the estimate is -1, and nothing is raised. *)
Theorem get_cagr_total_loss
    (market_chart : string -> string -> Z -> Response)
    (coin_id currency : string) (years : R) :
  status_code (market_chart coin_id currency (py_int (years * 365))) = 200%Z ->
  (2 <= List.length (prices (market_chart coin_id currency (py_int (years * 365)))))%nat ->
  price_at (prices (market_chart coin_id currency (py_int (years * 365)))) 0 <> 0 ->
  price_at (prices (market_chart coin_id currency (py_int (years * 365))))
    (List.length (prices (market_chart coin_id currency (py_int (years * 365)))) - 1) = 0 ->
  0 < years ->
  exists res,
    get_cagr market_chart coin_id years currency = Ok res /\
    result_cagr res = Some (Float (-1)).
Proof.
  intros Hs Hlen Hstart Hend Hyears. unfold price_at in *.
  destruct (get_cagr_estimate market_chart coin_id currency years Hs Hlen Hstart Hyears)
    as (v & Hv & Hres).
  eexists. split; [exact Hres |]. cbn [result_cagr]. do 2 f_equal.
  rewrite Hend in Hv.
  assert (Hexp : 0 < 1 / years) by (apply Rdiv_lt_0_compat; lra).
  unfold py_pow in Hv.
  replace (0 / snd (nth 0 (prices (market_chart coin_id currency
                                     (py_int (years * 365)))) (0, 0)))
    with 0 in Hv by (field; exact Hstart).
  destruct (Rlt_dec 0 0); [lra |].
  destruct (Req_dec_T 0 0); [| contradiction].
  destruct (Rlt_dec (1 / years) 0); [lra |].
  destruct (Req_dec_T (1 / years) 0); [lra |].
  injection Hv as <-. cbn [number_sub]. f_equal. lra.
Qed.

Lemma get_cagr_total_loss_witness :
  exists res,
    get_cagr (fixed_reply crash_reply) "bitcoin" 5 "usd" = Ok res /\
    result_cagr res = Some (Float (-1)).
Proof.
  apply (get_cagr_total_loss (fixed_reply crash_reply) "bitcoin" "usd" 5).
  - reflexivity.
  - simpl. lia.
  - unfold price_at. simpl. lra.
  - reflexivity.
  - lra.
Defined.

(** ** Bounds *)

Lemma py_round_bounds (x : R) (lo hi : Z) :
  IZR lo <= x <= IZR hi -> (lo <= py_round x <= hi)%Z.
Proof.
  intros [Hlo Hhi]. split.
  - rewrite <- (py_round_IZR lo). now apply py_round_le.
  - rewrite <- (py_round_IZR hi). now apply py_round_le.
Qed.

Lemma n_periods_bounds (req : ProjectionRequest) :
  ProjectionRequest_valid req ->
  (0 <= n_periods req <= 840)%Z /\ (0 <= py_round (req_years req) <= 70)%Z.
Proof.
  intros (_ & [Hy Hy70] & _).
  assert (H70 : (0 <= py_round (req_years req) <= 70)%Z)
    by (apply py_round_bounds; lra).
  split; [| exact H70].
  unfold n_periods. destruct (req_frequency req).
  - apply py_round_bounds. lra.
  - lia.
Qed.

(** X21.  The work is bounded by the constraint [years <= 70]: the periodic
    loop runs at most 840 months, the period count is at most 840, and the
    returned series has at most 70 points. *)
Theorem projection_size_bounds (req : ProjectionRequest) :
  ProjectionRequest_valid req ->
  (0 <= n_periods req <= 840)%Z /\
  (0 <= months_total req <= 840)%Z /\
  exists resp,
    projection req = Ok resp /\ (List.length (series resp) <= 70)%nat.
Proof.
  intros Hv. destruct (n_periods_bounds req Hv) as [Hn Hy].
  assert (Hm : (0 <= months_total req <= 840)%Z).
  { unfold months_total, n_periods in *. destruct (req_frequency req); lia. }
  split; [exact Hn |]. split; [exact Hm |].
  destruct (projection_series_valid req Hv) as (resp & E & Hs).
  exists resp. split; [exact E |]. rewrite Hs.
  unfold full_precision_series. destruct (req_type req).
  - rewrite length_map, length_seq.
    pose proof (months_total_sip_months req Hv) as Hsm.
    assert (sip_months req <= 840)%nat by lia.
    apply Nat.Div0.div_le_upper_bound. lia.
  - unfold range. rewrite !length_map, length_seq. lia.
Qed.

Lemma projection_size_bounds_witness :
  (0 <= n_periods scenario_a <= 840)%Z /\
  (0 <= months_total scenario_a <= 840)%Z /\
  exists resp,
    projection scenario_a = Ok resp /\ (List.length (series resp) <= 70)%nat.
Proof.
  apply (projection_size_bounds scenario_a).
  unfold ProjectionRequest_valid, scenario_a; simpl; lra.
Defined.

(** * The handlers in binary64 *)

Lemma sip_loop_months {F : Type} `{PyFloatOps F} (amount r_month : F) (months : Z) :
  sip_loop amount r_month months =
  (fst (sip_recurrence amount r_month (Z.to_nat months)),
   snd (sip_recurrence amount r_month (Z.to_nat months)),
   map (year_end_point amount r_month) (seq 1 (Z.to_nat months / 12))).
Proof.
  destruct (Z_le_gt_dec months 0) as [Hle | Hgt].
  - rewrite sip_loop_nonpos by exact Hle.
    replace (Z.to_nat months) with O by lia. reflexivity.
  - rewrite <- (Z2Nat.id months) at 1 by lia. apply sip_loop_recurrence.
Qed.

Module Binary64Facts.

Import Binary64.

Local Open Scope float_scope.
Local Open Scope binary64_scope.

(** ** What a returned value says about the steps before it *)

Lemma and_then_returned {A B : Type} (c : outcome A) (k : A -> outcome B) (b : B) :
  and_then c k = Returned b -> exists a, c = Returned a /\ k a = Returned b.
Proof.
  destruct c as [a | e]; cbn; [| discriminate].
  intros Hk. now exists a.
Qed.

Lemma map_outcome_returned {A B : Type} (f : A -> outcome B) (xs : list A)
    (ys : list B) :
  map_outcome f xs = Returned ys -> Forall2 (fun x y => f x = Returned y) xs ys.
Proof.
  revert ys. induction xs as [| x rest IH]; intros ys Hm; cbn in Hm.
  - injection Hm as <-. constructor.
  - apply and_then_returned in Hm as (y & Hy & Hm).
    apply and_then_returned in Hm as (ys' & Hys & Hm).
    injection Hm as <-. constructor; [exact Hy | now apply IH].
Qed.

Lemma map_outcome_map {A B : Type} (f : A -> outcome B) (g : A -> B) (xs : list A) :
  Forall (fun x => f x = Returned (g x)) xs ->
  map_outcome f xs = Returned (map g xs).
Proof.
  induction 1 as [| x rest Hx _ IH]; cbn; [reflexivity |].
  now rewrite Hx, IH.
Qed.

Section Handlers.

Variable fpow : float -> float -> outcome number.
Variable round2 : float -> float.

Lemma float_pow_returned (x y p : float) :
  float_pow fpow x y = Returned p -> fpow x y = Returned (Float p).
Proof.
  unfold float_pow. intros Hp.
  apply and_then_returned in Hp as ([q |] & Hq & Hp); [| discriminate].
  now injection Hp as <-.
Qed.

Lemma rate_monthly_returned (a r : float) :
  rate_monthly fpow a = Returned r ->
  exists p, fpow (1 + a) (1 / 12) = Returned (Float p) /\ r = p - 1.
Proof.
  unfold rate_monthly. intros Hr.
  apply and_then_returned in Hr as (p & Hp & Hr).
  apply float_pow_returned in Hp. injection Hr as <-. now exists p.
Qed.

(** Lines 166-175, frequency by frequency. *)
Lemma rate_and_periods_returned (req : ProjectionRequest) (r : float)
    (n label_div : Z) :
  rate_and_periods fpow req = Returned (r, n, label_div) ->
  match req_frequency req with
  | monthly =>
      exists p, fpow (1 + req_cagr req) (1 / 12) = Returned (Float p) /\
                r = p - 1 /\
                py_round (req_years req * 12) = Returned n /\ label_div = 12%Z
  | yearly =>
      r = req_cagr req /\ py_round (req_years req) = Returned n /\
      label_div = 1%Z
  end.
Proof.
  unfold rate_and_periods. destruct (req_frequency req); intros Hr.
  - apply and_then_returned in Hr as (r0 & Hr0 & Hr).
    apply and_then_returned in Hr as (n0 & Hn0 & Hr).
    apply rate_monthly_returned in Hr0 as (p & Hp & ->).
    injection Hr as <- <- <-. now exists p.
  - apply and_then_returned in Hr as (n0 & Hn0 & Hr).
    now injection Hr as <- <- <-.
Qed.

Lemma lump_point_returned (invested r : float) (label_div y : Z)
    (pt : ProjectionPoint float) :
  lump_point fpow invested r label_div y = Returned pt ->
  exists g,
    fpow (1 + r) (float_of_int (y * label_div)) = Returned (Float g) /\
    pt = Build_ProjectionPoint y invested (invested * g).
Proof.
  unfold lump_point. intros Hp.
  apply and_then_returned in Hp as (g & Hg & Hp).
  apply float_pow_returned in Hg. injection Hp as <-. now exists g.
Qed.

(** A returned response is built from the totals of a valid request. *)
Lemma projection_returned (req : ProjectionRequest) (resp : ProjectionResponse) :
  projection fpow round2 req = Returned resp ->
  ProjectionRequest_valid req = true /\
  exists totals,
    projection_totals fpow req = Returned totals /\
    resp = respond round2 req totals.
Proof.
  unfold projection. destruct (ProjectionRequest_valid req); [| discriminate].
  intros Hp. apply and_then_returned in Hp as (t & Ht & Hp).
  injection Hp as <-. split; [reflexivity |]. now exists t.
Qed.

(** The periodic mode: the monthly rate, the month count, the loop. *)
Lemma projection_totals_sip_returned (req : ProjectionRequest)
    (totals : float * float * list (ProjectionPoint float)) :
  req_type req = sip ->
  projection_totals fpow req = Returned totals ->
  exists p n,
    fpow (1 + req_cagr req) (1 / 12) = Returned (Float p) /\
    py_round (match req_frequency req with
              | monthly => req_years req * 12
              | yearly => req_years req
              end) = Returned n /\
    totals = sip_loop (req_amount req) (p - 1) (months_total req n).
Proof.
  intros Ht Hp. unfold projection_totals in Hp.
  apply and_then_returned in Hp as ([[r n] ld] & Hrn & Hp).
  rewrite Ht in Hp.
  apply and_then_returned in Hp as (rm & Hrm & Hp). injection Hp as <-.
  apply rate_and_periods_returned in Hrn.
  unfold r_month in Hrm. unfold months_total.
  destruct (req_frequency req).
  - destruct Hrn as (p & Hpow & -> & Hn & _). injection Hrm as <-.
    now exists p, n.
  - destruct Hrn as (-> & Hn & _).
    apply rate_monthly_returned in Hrm as (p & Hpow & ->).
    now exists p, n.
Qed.

(** The lump-sum mode: the growth factor and one point per year. *)
Lemma projection_totals_lump_returned (req : ProjectionRequest)
    (totals : float * float * list (ProjectionPoint float)) :
  req_type req = lump ->
  projection_totals fpow req = Returned totals ->
  exists r n label_div g last_year points,
    rate_and_periods fpow req = Returned (r, n, label_div) /\
    fpow (1 + r) (float_of_int n) = Returned (Float g) /\
    py_round (req_years req) = Returned last_year /\
    Forall2
      (fun y pt =>
         exists gy,
           fpow (1 + r) (float_of_int (y * label_div)) = Returned (Float gy) /\
           pt = Build_ProjectionPoint y (req_amount req) (req_amount req * gy))
      (range 1 (last_year + 1)) points /\
    totals = (req_amount req, req_amount req * g, points).
Proof.
  intros Ht Hp. unfold projection_totals in Hp.
  apply and_then_returned in Hp as ([[r n] ld] & Hrn & Hp).
  rewrite Ht in Hp.
  apply and_then_returned in Hp as (g & Hg & Hp).
  apply and_then_returned in Hp as (last_year & Hl & Hp).
  apply and_then_returned in Hp as (points & Hpts & Hp).
  injection Hp as <-. apply float_pow_returned in Hg.
  exists r, n, ld, g, last_year, points.
  repeat split; try assumption.
  apply map_outcome_returned in Hpts.
  eapply Forall2_impl; [| exact Hpts].
  intros y pt Hy. now apply lump_point_returned.
Qed.

(** Everything a returned response holds, field by field. *)
Lemma projection_returned_fields (req : ProjectionRequest)
    (resp : ProjectionResponse) :
  projection fpow round2 req = Returned resp ->
  exists r n label_div invested value,
    rate_and_periods fpow req = Returned (r, n, label_div) /\
    match req_type req with
    | sip =>
        exists rm,
          r_month fpow req r = Returned rm /\
          (invested, value) =
            sip_recurrence (req_amount req) rm (Z.to_nat (months_total req n)) /\
          series resp =
            map (year_end_point (req_amount req) rm)
                (seq 1 (Z.to_nat (months_total req n) / 12))
    | lump =>
        exists g last_year,
          fpow (1 + r) (float_of_int n) = Returned (Float g) /\
          invested = req_amount req /\
          value = req_amount req * g /\
          py_round (req_years req) = Returned last_year /\
          Forall2
            (fun y pt =>
               exists gy,
                 fpow (1 + r) (float_of_int (y * label_div)) =
                   Returned (Float gy) /\
                 pt = Build_ProjectionPoint y (req_amount req)
                        (req_amount req * gy))
            (range 1 (last_year + 1)) (series resp)
    end /\
    total_invested resp = round2 invested /\
    final_value resp = round2 value /\
    profit resp = round2 (value - invested) /\
    cagr resp = req_cagr req /\
    years resp = req_years req.
Proof.
  intros Hp. apply projection_returned in Hp as (_ & totals & Ht & ->).
  destruct (req_type req) eqn:Hty.
  - pose proof Ht as Hs. unfold projection_totals in Hs.
    apply and_then_returned in Hs as ([[r n] ld] & Hrn & Hs).
    rewrite Hty in Hs.
    apply and_then_returned in Hs as (rm & Hrm & Hs). injection Hs as <-.
    rewrite sip_loop_months.
    destruct (sip_recurrence (req_amount req) rm
                (Z.to_nat (months_total req n))) as [i v] eqn:Erec.
    exists r, n, ld, i, v. cbn [fst snd respond total_invested final_value
      profit cagr years series].
    split; [exact Hrn |]. split; [| now repeat split].
    exists rm. now repeat split.
  - apply (projection_totals_lump_returned req totals Hty) in Ht
      as (r & n & ld & g & last_year & points & Hrn & Hg & Hl & Hpts & ->).
    exists r, n, ld, (req_amount req), (req_amount req * g).
    cbn [respond total_invested final_value profit cagr years series].
    split; [exact Hrn |]. split; [| now repeat split].
    exists g, last_year. now repeat split.
Qed.

End Handlers.

(** ** The periodic mode *)

(** C2.  Whenever a periodic (SIP) request is answered, whatever the
    compounding frequency, the monthly rate [(1 + a) ** (1 / 12) - 1] is the
    growth rate of the recurrence, and the recurrence is iterated over [m]
    months: [m = round(years * 12)], the rounded binary64 product, for the
    monthly frequency and [m = round(years) * 12] for the yearly one.  The
    response's totals are the state of the recurrence after these [m]
    months, rounded to 2 digits. *)
Theorem sip_iterates_monthly_rate_over_rounded_months
    (fpow : float -> float -> outcome number) (round2 : float -> float)
    (req : ProjectionRequest) (resp : ProjectionResponse) :
  req_type req = sip ->
  projection fpow round2 req = Returned resp ->
  exists p m,
    fpow (1 + req_cagr req) (1 / 12) = Returned (Float p) /\
    match req_frequency req with
    | monthly => py_round (req_years req * 12) = Returned m
    | yearly =>
        exists n, py_round (req_years req) = Returned n /\ m = (n * 12)%Z
    end /\
    total_invested resp =
      round2 (fst (sip_recurrence (req_amount req) (p - 1) (Z.to_nat m))) /\
    final_value resp =
      round2 (snd (sip_recurrence (req_amount req) (p - 1) (Z.to_nat m))).
Proof.
  intros Hty Hp.
  apply projection_returned in Hp as (_ & totals & Ht & ->).
  apply (projection_totals_sip_returned fpow req totals Hty) in Ht
    as (p & n & Hpow & Hn & ->).
  rewrite sip_loop_months. unfold months_total.
  destruct (req_frequency req).
  - exists p, n. now repeat split.
  - exists p, (n * 12)%Z. split; [exact Hpow |]. split; [now exists n |].
    now split.
Qed.

(** The horizon 0.9583333333333333 with the monthly frequency: the product
    with 12 is the tie 11.5 and is rounded to 12 months. *)
Lemma sip_iterates_monthly_rate_over_rounded_months_witness :
  exists resp,
    projection special_pow cpython_round2 tie_sip = Returned resp /\
    total_invested resp = 1200 /\
    exists p m,
      special_pow (1 + req_cagr tie_sip) (1 / 12) = Returned (Float p) /\
      match req_frequency tie_sip with
      | monthly => py_round (req_years tie_sip * 12) = Returned m
      | yearly =>
          exists n, py_round (req_years tie_sip) = Returned n /\ m = (n * 12)%Z
      end /\
      total_invested resp =
        cpython_round2
          (fst (sip_recurrence (req_amount tie_sip) (p - 1) (Z.to_nat m))) /\
      final_value resp =
        cpython_round2
          (snd (sip_recurrence (req_amount tie_sip) (p - 1) (Z.to_nat m))).
Proof.
  eexists. split; [vm_compute; reflexivity |]. split; [reflexivity |].
  apply (sip_iterates_monthly_rate_over_rounded_months
           special_pow cpython_round2 tie_sip).
  - reflexivity.
  - vm_compute. reflexivity.
Defined.

(** X3.  Whenever a periodic request is answered, the series has one point
    per completed year and none for a remainder of months: with [m] the
    number of months iterated, the years are 1, 2, ..., [m // 12] in order,
    and the point of year [k] holds the sum of [12 k] contributions as
    invested and the state of the recurrence after [12 k] months as
    value. *)
Theorem sip_series_one_point_per_completed_year
    (fpow : float -> float -> outcome number) (round2 : float -> float)
    (req : ProjectionRequest) (resp : ProjectionResponse) :
  req_type req = sip ->
  projection fpow round2 req = Returned resp ->
  exists p n,
    fpow (1 + req_cagr req) (1 / 12) = Returned (Float p) /\
    py_round (match req_frequency req with
              | monthly => req_years req * 12
              | yearly => req_years req
              end) = Returned n /\
    let m := Z.to_nat (months_total req n) in
    map year (series resp) = map Z.of_nat (seq 1 (m / 12)) /\
    Forall2
      (fun k pt =>
         invested pt = repeated_sum (req_amount req) (12 * k) /\
         value pt = snd (sip_recurrence (req_amount req) (p - 1) (12 * k)))
      (seq 1 (m / 12)) (series resp).
Proof.
  intros Hty Hp.
  apply projection_returned in Hp as (_ & totals & Ht & ->).
  apply (projection_totals_sip_returned fpow req totals Hty) in Ht
    as (p & n & Hpow & Hn & ->).
  exists p, n. split; [exact Hpow |]. split; [exact Hn |].
  rewrite sip_loop_months. cbn [respond series].
  split.
  - rewrite map_map. apply map_ext. intros k.
    apply (year_end_point_fields (req_amount req) (p - 1) k).
  - generalize (seq 1 (Z.to_nat (months_total req n) / 12)).
    intros ks. induction ks as [| k ks IH]; cbn [map]; constructor;
      [| exact IH].
    destruct (year_end_point_fields (req_amount req) (p - 1) k)
      as (_ & Ei & Ev).
    rewrite Ei, Ev, sip_recurrence_invested. now split.
Qed.

(** 250 a month for 2 years at 0%, yearly frequency: two points. *)
Lemma sip_series_one_point_per_completed_year_witness :
  exists resp,
    projection special_pow cpython_round2 flat_sip = Returned resp /\
    map year (series resp) = [1; 2]%Z /\
    exists p n,
      special_pow (1 + req_cagr flat_sip) (1 / 12) = Returned (Float p) /\
      py_round (match req_frequency flat_sip with
                | monthly => req_years flat_sip * 12
                | yearly => req_years flat_sip
                end) = Returned n /\
      let m := Z.to_nat (months_total flat_sip n) in
      map year (series resp) = map Z.of_nat (seq 1 (m / 12)) /\
      Forall2
        (fun k pt =>
           invested pt = repeated_sum (req_amount flat_sip) (12 * k) /\
           value pt =
             snd (sip_recurrence (req_amount flat_sip) (p - 1) (12 * k)))
        (seq 1 (m / 12)) (series resp).
Proof.
  eexists. split; [vm_compute; reflexivity |]. split; [reflexivity |].
  apply (sip_series_one_point_per_completed_year
           special_pow cpython_round2 flat_sip).
  - reflexivity.
  - vm_compute. reflexivity.
Defined.

(** ** The response boundary *)

(** C7.  Whenever a request is answered, profit is computed as
    [value - invested] on the unrounded totals, and the response carries
    [round(invested, 2)], [round(value, 2)] and [round(value - invested, 2)],
    each rounded on its own.  Nothing is rounded before: in periodic mode
    [invested] and [value] are the state of the recurrence, iterated in
    binary64 with no rounding to digits; in lump-sum mode they are the
    amount and the amount times the growth factor. *)
Theorem totals_rounded_at_response_boundary
    (fpow : float -> float -> outcome number) (round2 : float -> float)
    (req : ProjectionRequest) (resp : ProjectionResponse) :
  projection fpow round2 req = Returned resp ->
  exists r n label_div invested value,
    rate_and_periods fpow req = Returned (r, n, label_div) /\
    match req_type req with
    | sip =>
        exists rm,
          r_month fpow req r = Returned rm /\
          (invested, value) =
            sip_recurrence (req_amount req) rm (Z.to_nat (months_total req n))
    | lump =>
        exists g,
          fpow (1 + r) (float_of_int n) = Returned (Float g) /\
          invested = req_amount req /\
          value = req_amount req * g
    end /\
    total_invested resp = round2 invested /\
    final_value resp = round2 value /\
    profit resp = round2 (value - invested).
Proof.
  intros Hp.
  apply projection_returned_fields in Hp
    as (r & n & ld & i & v & Hrn & Hmode & Hi & Hv & Hpr & _).
  exists r, n, ld, i, v. split; [exact Hrn |]. split; [| now repeat split].
  destruct (req_type req).
  - destruct Hmode as (rm & Hrm & Hrec & _). now exists rm.
  - destruct Hmode as (g & last_year & Hg & Ei & Ev & _). now exists g.
Qed.

(** 250 a month for 2 years at 0%: 6000 invested, 6000 at the end. *)
Lemma totals_rounded_at_response_boundary_witness :
  exists resp,
    projection special_pow cpython_round2 flat_sip = Returned resp /\
    (total_invested resp, final_value resp, profit resp) = (6000, 6000, 0) /\
    exists r n label_div invested value,
      rate_and_periods special_pow flat_sip = Returned (r, n, label_div) /\
      match req_type flat_sip with
      | sip =>
          exists rm,
            r_month special_pow flat_sip r = Returned rm /\
            (invested, value) =
              sip_recurrence (req_amount flat_sip) rm
                (Z.to_nat (months_total flat_sip n))
      | lump =>
          exists g,
            special_pow (1 + r) (float_of_int n) = Returned (Float g) /\
            invested = req_amount flat_sip /\
            value = req_amount flat_sip * g
      end /\
      total_invested resp = cpython_round2 invested /\
      final_value resp = cpython_round2 value /\
      profit resp = cpython_round2 (value - invested).
Proof.
  eexists. split; [vm_compute; reflexivity |]. split; [reflexivity |].
  apply (totals_rounded_at_response_boundary
           special_pow cpython_round2 flat_sip).
  vm_compute. reflexivity.
Defined.

(** C10.  Whenever a request is answered, the points of the series are
    emitted at full precision: in periodic mode they are the states of the
    recurrence at the close of each year, in lump-sum mode the amount and
    the amount times the growth factor of the year.  Of the response's
    fields only [total_invested], [final_value] and [profit] are rounded;
    [cagr] and [years] are the request's.  So the last point's value can
    differ from [final_value]: 1 at 12.345% for one year gives a point of
    value 1.12345 and a final value of 1.12. *)
Theorem only_the_totals_are_rounded :
  (forall (fpow : float -> float -> outcome number) (round2 : float -> float)
          (req : ProjectionRequest) (resp : ProjectionResponse),
     projection fpow round2 req = Returned resp ->
     exists r n label_div invested value,
       rate_and_periods fpow req = Returned (r, n, label_div) /\
       match req_type req with
       | sip =>
           exists rm,
             r_month fpow req r = Returned rm /\
             (invested, value) =
               sip_recurrence (req_amount req) rm
                 (Z.to_nat (months_total req n)) /\
             series resp =
               map (year_end_point (req_amount req) rm)
                   (seq 1 (Z.to_nat (months_total req n) / 12))
       | lump =>
           exists g last_year,
             fpow (1 + r) (float_of_int n) = Returned (Float g) /\
             invested = req_amount req /\
             value = req_amount req * g /\
             py_round (req_years req) = Returned last_year /\
             Forall2
               (fun y pt =>
                  exists gy,
                    fpow (1 + r) (float_of_int (y * label_div)) =
                      Returned (Float gy) /\
                    pt = Build_ProjectionPoint y (req_amount req)
                           (req_amount req * gy))
               (range 1 (last_year + 1)) (series resp)
       end /\
       total_invested resp = round2 invested /\
       final_value resp = round2 value /\
       profit resp = round2 (value - invested) /\
       cagr resp = req_cagr req /\
       years resp = req_years req) /\
  (exists resp pt,
     projection special_pow cpython_round2 fine_lump = Returned resp /\
     series resp = [pt] /\
     value pt = 0x1.1f9a6b50b0f28p+0 /\
     final_value resp = 0x1.1eb851eb851ecp+0 /\
     PrimFloat.eqb (value pt) (final_value resp) = false).
Proof.
  split.
  - intros fpow round2 req resp Hp.
    now apply projection_returned_fields.
  - do 2 eexists. split; [vm_compute; reflexivity |].
    repeat split; reflexivity.
Qed.

(** ** Lump sums under the two frequencies *)



(** ** The CAGR endpoint *)

Lemma py_item_at {A : Type} (xs : list A) (n : nat) (d : A) :
  (n < List.length xs)%nat -> py_item xs (Z.of_nat n) = Returned (nth n xs d).
Proof.
  intros Hn. unfold py_item.
  destruct (Z.ltb_spec (Z.of_nat n) 0) as [Hneg | _]; [lia |].
  destruct (Z.ltb_spec (Z.of_nat n) 0) as [Hneg | _]; [lia |].
  destruct (Z.leb_spec (Z.of_nat (List.length xs)) (Z.of_nat n)) as [Hbig | _];
    [lia |].
  cbn [orb]. rewrite Nat2Z.id.
  now rewrite (nth_error_nth' xs d Hn).
Qed.

Lemma py_item_final {A : Type} (xs : list A) (d : A) :
  (0 < List.length xs)%nat ->
  py_item xs (-1) = Returned (nth (List.length xs - 1) xs d).
Proof.
  intros Hn. unfold py_item. cbn [Z.ltb Z.compare].
  destruct (Z.ltb_spec (Z.of_nat (List.length xs) + -1) 0) as [Hneg | _];
    [lia |].
  destruct (Z.leb_spec (Z.of_nat (List.length xs))
              (Z.of_nat (List.length xs) + -1)) as [Hbig | _]; [lia |].
  cbn [orb].
  replace (Z.to_nat (Z.of_nat (List.length xs) + -1))
    with (List.length xs - 1)%nat by lia.
  rewrite (nth_error_nth' xs d); [reflexivity | lia].
Qed.

(** Up to a hundred years of daily samples, [round(365 k / 365)] is [k]. *)
Lemma year_numbers_exact (k : nat) :
  (k < 100)%nat ->
  py_round (float_of_int (365 * Z.of_nat k) / 365) = Returned (Z.of_nat k).
Proof.
  intros Hk.
  assert (Hall :
    forallb
      (fun k =>
         match py_round (float_of_int (365 * Z.of_nat k) / 365) with
         | Returned z => (z =? Z.of_nat k)%Z
         | Raised _ => false
         end)
      (seq 0 100) = true) by (vm_compute; reflexivity).
  rewrite forallb_forall in Hall.
  specialize (Hall k ltac:(apply in_seq; lia)).
  destruct (py_round (float_of_int (365 * Z.of_nat k) / 365)) as [z | e];
    [| discriminate].
  apply Z.eqb_eq in Hall. now subst z.
Qed.

Section Cagr.

Variable fpow : float -> float -> outcome number.
Variable market_chart : string -> string -> Z -> Response.

(** What a returned estimate says about the steps of the handler. *)
Lemma get_cagr_estimate_returned (coin_id currency : string) (years : float)
    (res : CagrResult) (series : list (Z * float)) :
  get_cagr fpow market_chart coin_id years currency = Returned res ->
  result_series res = Some series ->
  exists days final last_year strided,
    py_int (years * 365) = Returned days /\
    let samples := prices (market_chart coin_id currency days) in
    let len := Z.of_nat (List.length samples) in
    (2 <= len)%Z /\
    py_item samples (-1) = Returned final /\
    py_int years = Returned last_year /\
    map_outcome (strided_point samples len) (range_step len 365) =
      Returned strided /\
    series = strided ++ [(last_year, snd final)].
Proof.
  unfold get_cagr. intros Hg Hs.
  destruct ((0 <? years) && (years <=? 70)); [| discriminate].
  apply and_then_returned in Hg as (days & Hd & Hg). cbv zeta in Hg.
  destruct (negb (status_code (market_chart coin_id currency days) =? 200)%Z).
  { injection Hg as <-. discriminate. }
  destruct (Z.ltb_spec
              (Z.of_nat (List.length (prices (market_chart coin_id currency days))))
              2) as [Hlt | Hge].
  { injection Hg as <-. discriminate. }
  apply and_then_returned in Hg as (first & Hf & Hg).
  apply and_then_returned in Hg as (final & Hl & Hg).
  apply and_then_returned in Hg as (ratio & Hr & Hg).
  apply and_then_returned in Hg as (exponent & He & Hg).
  apply and_then_returned in Hg as (p & Hp & Hg).
  apply and_then_returned in Hg as (strided & Hst & Hg).
  apply and_then_returned in Hg as (last_year & Hy & Hg).
  injection Hg as <-. cbn [result_series] in Hs. injection Hs as <-.
  exists days, final, last_year, strided. cbv zeta.
  now repeat split.
Qed.

(** C5.  Whenever the estimation returns an estimate, the series is the
    strided points followed by one more point: its year is [int(years)],
    the horizon truncated toward zero, and its price is that of the last
    sample.  The point is appended whatever the strided points are, so it
    may repeat the last of them. *)
Theorem get_cagr_series_ends_with_truncated_horizon
    (coin_id currency : string) (years : float) (res : CagrResult)
    (series : list (Z * float)) :
  get_cagr fpow market_chart coin_id years currency = Returned res ->
  result_series res = Some series ->
  exists days final last_year strided,
    py_int (years * 365) = Returned days /\
    py_item (prices (market_chart coin_id currency days)) (-1) =
      Returned final /\
    py_int years = Returned last_year /\
    List.length strided =
      strided_count
        (List.length (prices (market_chart coin_id currency days))) /\
    series = strided ++ [(last_year, snd final)].
Proof.
  intros Hg Hs.
  destruct (get_cagr_estimate_returned coin_id currency years res series Hg Hs)
    as (days & final & last_year & strided & Hd & _ & Hl & Hy & Hst & ->).
  exists days, final, last_year, strided.
  repeat split; try assumption.
  apply map_outcome_returned in Hst. apply Forall2_length in Hst.
  rewrite <- Hst, range_step_365. now rewrite length_map, length_seq.
Qed.

(** X8.  Whenever the estimation returns an estimate from at most 36500
    samples, the strided part of the series takes every 365th sample,
    starting with the first: its [k]-th point (from 0) is labelled year [k]
    and carries the price of sample [365 k]; there are [ceil(len / 365)]
    such points, and the point of the last sample follows them. *)
Theorem get_cagr_strided_points
    (coin_id currency : string) (years : float) (days : Z) (res : CagrResult)
    (series : list (Z * float)) :
  py_int (years * 365) = Returned days ->
  (Z.of_nat (List.length (prices (market_chart coin_id currency days)))
     <= 36500)%Z ->
  get_cagr fpow market_chart coin_id years currency = Returned res ->
  result_series res = Some series ->
  exists last_year,
    py_int years = Returned last_year /\
    let samples := prices (market_chart coin_id currency days) in
    series =
      map (fun k => (Z.of_nat k, price_at samples (365 * k)))
          (seq 0 (strided_count (List.length samples))) ++
      [(last_year, price_at samples (List.length samples - 1))].
Proof.
  intros Hd Hlen Hg Hs.
  destruct (get_cagr_estimate_returned coin_id currency years res series Hg Hs)
    as (days' & final & last_year & strided & Hd' & Hge & Hl & Hy & Hst & ->).
  rewrite Hd in Hd'. injection Hd' as <-. cbv zeta in *.
  set (samples := prices (market_chart coin_id currency days)) in *.
  exists last_year. split; [exact Hy |].
  rewrite (py_item_final samples (0, 0)) in Hl by lia.
  injection Hl as <-. unfold price_at. f_equal.
  rewrite range_step_365 in Hst.
  rewrite (map_outcome_map _
             (fun i => ((i / 365)%Z, snd (nth (Z.to_nat i) samples (0, 0)))))
      in Hst.
  - match type of Hst with
    | Returned ?points = _ =>
        assert (Es : strided = points) by congruence
    end.
    rewrite Es, map_map. apply map_ext. intros k.
    rewrite (Z.mul_comm 365), Z.div_mul by lia.
    do 3 f_equal. lia.
  - apply Forall_forall. intros i Hi. apply in_map_iff in Hi.
    destruct Hi as (k & <- & Hk). apply in_seq in Hk.
    unfold strided_count in Hk.
    assert (Hk1 : (365 * k < List.length samples)%nat).
    { pose proof (Nat.div_mod_eq (List.length samples + 364) 365) as E.
      pose proof (Nat.mod_upper_bound (List.length samples + 364) 365
                    ltac:(lia)) as B.
      lia. }
    assert (Hk2 : (k < 100)%nat) by lia.
    unfold strided_point.
    rewrite Z.min_l by lia.
    replace (365 * Z.of_nat k)%Z with (Z.of_nat (365 * k)) at 1 by lia.
    rewrite (py_item_at samples (365 * k) (0, 0) Hk1).
    cbn [and_then]. rewrite (year_numbers_exact k Hk2). cbn [and_then].
    rewrite (Z.mul_comm 365), Z.div_mul by lia.
    do 4 f_equal. lia.
Qed.

End Cagr.

(** 366 daily samples over a horizon of 1 year: the strided points are
    those of days 0 and 365, and the appended point repeats the second. *)
Lemma get_cagr_series_ends_with_truncated_horizon_witness :
  exists res,
    get_cagr special_pow (fixed_reply year_reply) "bitcoin" 1 "usd" =
      Returned res /\
    result_series res = Some [(0%Z, 100); (1%Z, 465); (1%Z, 465)] /\
    exists days final last_year strided,
      py_int (1 * 365) = Returned days /\
      py_item (prices (fixed_reply year_reply "bitcoin" "usd" days)) (-1) =
        Returned final /\
      py_int 1 = Returned last_year /\
      List.length strided =
        strided_count
          (List.length (prices (fixed_reply year_reply "bitcoin" "usd" days))) /\
      [(0%Z, 100); (1%Z, 465); (1%Z, 465)] =
        strided ++ [(last_year, snd final)].
Proof.
  eexists. split; [vm_compute; reflexivity |]. split; [reflexivity |].
  apply (get_cagr_series_ends_with_truncated_horizon
           special_pow (fixed_reply year_reply) "bitcoin" "usd" 1
           (CagrEstimate "bitcoin" 1 "usd" (Float 0x1.d333333333334p+1)
              100 465 [(0%Z, 100); (1%Z, 465); (1%Z, 465)])).
  - vm_compute. reflexivity.
  - reflexivity.
Defined.

Lemma get_cagr_strided_points_witness :
  exists res,
    get_cagr special_pow (fixed_reply year_reply) "bitcoin" 1 "usd" =
      Returned res /\
    exists last_year,
      py_int 1 = Returned last_year /\
      let samples := prices (fixed_reply year_reply "bitcoin" "usd" 365) in
      [(0%Z, 100); (1%Z, 465); (1%Z, 465)] =
        map (fun k => (Z.of_nat k, price_at samples (365 * k)))
            (seq 0 (strided_count (List.length samples))) ++
        [(last_year, price_at samples (List.length samples - 1))].
Proof.
  eexists. split; [vm_compute; reflexivity |].
  apply (get_cagr_strided_points
           special_pow (fixed_reply year_reply) "bitcoin" "usd" 1 365
           (CagrEstimate "bitcoin" 1 "usd" (Float 0x1.d333333333334p+1)
              100 465 [(0%Z, 100); (1%Z, 465); (1%Z, 465)])).
  - vm_compute. reflexivity.
  - vm_compute. discriminate.
  - vm_compute. reflexivity.
  - reflexivity.
Defined.

End Binary64Facts.

(** * The cached endpoints *)

Module MarketFacts.

Import Market.

Section Coins.

Variable lower : string -> string.

Lemma get_coins_miss (markets : Z -> http_reply) (now : float)
    (search : option string) (cache : Cache) :
  no_data (data (cache_coins cache)) || stale now (cache_coins cache) = true ->
  get_coins lower markets now search cache =
  match fetch_coins markets with
  | Raised e => (Raised e, cache)
  | Returned all =>
      (select_coins lower search all,
       {| cache_coins := {| data := Some all; ts := now |};
          cache_rates := cache_rates cache |})
  end.
Proof. intros Hmiss. unfold get_coins. now rewrite Hmiss. Qed.

Lemma get_coins_hit (markets : Z -> http_reply) (now : float)
    (search : option string) (cache : Cache) :
  no_data (data (cache_coins cache)) = false ->
  stale now (cache_coins cache) = false ->
  get_coins lower markets now search cache =
  (select_coins lower search (cached (data (cache_coins cache))), cache).
Proof. intros Hd Hs. unfold get_coins. now rewrite Hd, Hs. Qed.

(** X11.  While the cached coin list is not empty and not older than
    [CACHE_TTL], [get_coins] does not depend on the provider: two providers,
    even a failing one, give the same reply, and the cache is left as it
    was. *)
Theorem get_coins_fresh_cache_ignores_provider
    (markets1 markets2 : Z -> http_reply) (now : float)
    (search : option string) (cache : Cache) :
  no_data (data (cache_coins cache)) = false ->
  stale now (cache_coins cache) = false ->
  get_coins lower markets1 now search cache =
    get_coins lower markets2 now search cache /\
  snd (get_coins lower markets1 now search cache) = cache.
Proof.
  intros Hd Hs. rewrite !get_coins_hit by assumption. now split.
Qed.

(** X12.  A refresh is remembered: after a call that fetched a non-empty
    list at time [now1], a call at a time [now2] with
    [now2 - now1 > CACHE_TTL] false is answered from that list, whatever the
    provider does then, and leaves the cache alone. *)
Theorem get_coins_second_call_served_from_cache
    (markets1 markets2 : Z -> http_reply) (now1 now2 : float)
    (search1 search2 : option string) (cache : Cache) (all : list Coin) :
  no_data (data (cache_coins cache)) || stale now1 (cache_coins cache) = true ->
  fetch_coins markets1 = Returned all ->
  no_data (Some all) = false ->
  PrimFloat.ltb CACHE_TTL (PrimFloat.sub now2 now1) = false ->
  get_coins lower markets2 now2 search2
    (snd (get_coins lower markets1 now1 search1 cache)) =
  (select_coins lower search2 all,
   snd (get_coins lower markets1 now1 search1 cache)).
Proof.
  intros Hmiss Hfetch Hall Hfresh.
  rewrite (get_coins_miss markets1 now1 search1 cache Hmiss), Hfetch.
  cbn [snd]. now apply get_coins_hit.
Qed.

(** X13.  A failed fetch changes nothing: when the cache is empty or stale
    and the first page fails, or the first page arrives as a list and the
    second fails, [get_coins] raises the request's exception and the cache
    is as before (nothing of the first page is kept). *)
Theorem get_coins_failed_fetch_keeps_cache
    (markets : Z -> http_reply) (now : float)
    (search : option string) (cache : Cache) :
  no_data (data (cache_coins cache)) || stale now (cache_coins cache) = true ->
  markets 1%Z = HttpFailed \/
  (exists page1, markets 1%Z = HttpJson (JArray page1) /\ markets 2%Z = HttpFailed) ->
  get_coins lower markets now search cache = (Raised RequestException, cache).
Proof.
  intros Hmiss Hfail. rewrite get_coins_miss by assumption.
  unfold fetch_coins.
  destruct Hfail as [H1 | (page1 & H1 & H2)]; rewrite H1.
  - reflexivity.
  - cbn [extend and_then]. now rewrite H2.
Qed.

(** X14.  What [get_coins] stores does not depend on the search text, and
    it never touches the exchange-rate entry of the cache: the filtered list
    is returned, the full list is cached. *)
Theorem get_coins_cache_independent_of_search
    (markets : Z -> http_reply) (now : float)
    (search : option string) (cache : Cache) :
  snd (get_coins lower markets now search cache) =
    snd (get_coins lower markets now None cache) /\
  cache_rates (snd (get_coins lower markets now search cache)) = cache_rates cache.
Proof.
  unfold get_coins.
  destruct (no_data (data (cache_coins cache)) || stale now (cache_coins cache)).
  - destruct (fetch_coins markets); now split.
  - now split.
Qed.

(** X15.  An empty coin list is stored but never served: after a fetch that
    returned no coin, the next call asks the provider again, however soon
    it comes; if the provider is then down, it raises. *)
Theorem get_coins_empty_list_is_refetched
    (markets1 markets2 : Z -> http_reply) (now1 now2 : float)
    (search1 search2 : option string) (cache : Cache) :
  no_data (data (cache_coins cache)) || stale now1 (cache_coins cache) = true ->
  fetch_coins markets1 = Returned [] ->
  markets2 1%Z = HttpFailed ->
  data (cache_coins (snd (get_coins lower markets1 now1 search1 cache))) = Some [] /\
  fst (get_coins lower markets2 now2 search2
         (snd (get_coins lower markets1 now1 search1 cache))) =
  Raised RequestException.
Proof.
  intros Hmiss Hfetch Hdown.
  rewrite (get_coins_miss markets1 now1 search1 cache Hmiss), Hfetch.
  cbn [snd cache_coins data]. split; [reflexivity |].
  rewrite get_coins_miss by reflexivity.
  unfold fetch_coins. now rewrite Hdown.
Qed.

Lemma lowered_or_empty_text (v : json) (s : string) :
  text_of v = Some s -> lowered_or_empty lower v = Returned (lower s).
Proof.
  unfold text_of, lowered_or_empty.
  destruct (py_truthy v).
  - destruct v; try discriminate. now intros [= ->].
  - now intros [= <-].
Qed.

Lemma coin_matches_textual (s : string) (c : Coin) :
  textual c -> coin_matches lower s c = Returned (matches_text lower s c).
Proof.
  intros [Hn Hy]. unfold coin_matches, matches_text.
  destruct (text_of (c_name c)) as [n |] eqn:En; [| contradiction].
  destruct (text_of (c_symbol c)) as [y |] eqn:Ey; [| contradiction].
  rewrite (lowered_or_empty_text _ n En). cbn [and_then].
  destruct (contains s (lower n)); [reflexivity |].
  rewrite (lowered_or_empty_text _ y Ey). reflexivity.
Qed.

Lemma filter_outcome_textual (s : string) (cs : list Coin) :
  Forall textual cs ->
  filter_outcome (coin_matches lower s) cs =
  Returned (filter (matches_text lower s) cs).
Proof.
  induction 1 as [| c cs Hc _ IH]; [reflexivity |].
  cbn [filter_outcome filter]. rewrite coin_matches_textual by assumption.
  cbn [and_then]. rewrite IH. cbn [and_then].
  now destruct (matches_text lower s c).
Qed.

(** X16.  With a non-empty search text and coins whose names and symbols
    are strings (or missing), the reply holds exactly the coins whose
    lowered name or lowered symbol contains the lowered text, in the order of
    the list, and [count] is their number. *)
Theorem select_coins_returns_the_matches
    (q : string) (cs : list Coin) :
  q <> EmptyString -> Forall textual cs ->
  select_coins lower (Some q) cs =
  Returned {| count := List.length (filter (matches_text lower (lower q)) cs);
              coins := filter (matches_text lower (lower q)) cs |}.
Proof.
  intros Hq Hcs. unfold select_coins.
  destruct q as [| ch rest]; [contradiction |].
  now rewrite filter_outcome_textual.
Qed.

End Coins.

Lemma get_coins_fresh_cache_ignores_provider_witness :
  get_coins ascii_lower three_coins 1300%float (Some "BIT"%string) warm_cache =
    get_coins ascii_lower provider_down 1300%float (Some "BIT"%string) warm_cache /\
  snd (get_coins ascii_lower three_coins 1300%float (Some "BIT"%string) warm_cache) =
    warm_cache.
Proof.
  apply (get_coins_fresh_cache_ignores_provider ascii_lower three_coins
           provider_down 1300%float (Some "BIT"%string) warm_cache).
  - vm_compute. reflexivity.
  - vm_compute. reflexivity.
Defined.

Lemma get_coins_second_call_served_from_cache_witness :
  get_coins ascii_lower provider_down 1300%float (Some "eth"%string)
    (snd (get_coins ascii_lower three_coins 1000%float None initial_cache)) =
  (select_coins ascii_lower (Some "eth"%string) sample_coins,
   snd (get_coins ascii_lower three_coins 1000%float None initial_cache)).
Proof.
  apply (get_coins_second_call_served_from_cache ascii_lower three_coins
           provider_down 1000%float 1300%float None (Some "eth"%string)
           initial_cache sample_coins).
  - reflexivity.
  - vm_compute. reflexivity.
  - vm_compute. reflexivity.
  - vm_compute. reflexivity.
Defined.

Lemma get_coins_failed_fetch_keeps_cache_witness :
  get_coins ascii_lower second_page_down 1000%float None initial_cache =
  (Raised RequestException, initial_cache).
Proof.
  apply (get_coins_failed_fetch_keeps_cache ascii_lower second_page_down
           1000%float None initial_cache).
  - reflexivity.
  - right. eexists. split; reflexivity.
Defined.

Lemma get_coins_empty_list_is_refetched_witness :
  data (cache_coins (snd (get_coins ascii_lower no_coins 1000%float None
                            initial_cache))) = Some [] /\
  fst (get_coins ascii_lower provider_down 1001%float None
         (snd (get_coins ascii_lower no_coins 1000%float None initial_cache))) =
  Raised RequestException.
Proof.
  apply (get_coins_empty_list_is_refetched ascii_lower no_coins provider_down
           1000%float 1001%float None None initial_cache).
  - reflexivity.
  - reflexivity.
  - reflexivity.
Defined.

Lemma sample_coins_textual : Forall textual sample_coins.
Proof.
  repeat (constructor; [split; vm_compute; discriminate |]). constructor.
Qed.

Lemma select_coins_returns_the_matches_witness :
  select_coins ascii_lower (Some "BIT"%string) sample_coins =
  Returned
    {| count := List.length (filter (matches_text ascii_lower (ascii_lower "BIT"))
                               sample_coins);
       coins := filter (matches_text ascii_lower (ascii_lower "BIT")) sample_coins |}.
Proof.
  apply (select_coins_returns_the_matches ascii_lower "BIT" sample_coins).
  - discriminate.
  - exact sample_coins_textual.
Defined.

(** The search for ["BIT"] finds Bitcoin only: the query is lowered. *)
Lemma search_is_lowered :
  select_coins ascii_lower (Some "BIT"%string) sample_coins =
  Returned {| count := 1; coins := firstn 1 sample_coins |}.
Proof. vm_compute. reflexivity. Qed.

Section Rates.

Variable upper : string -> string.
Variable truediv : json -> json -> outcome float.

Lemma items_of_rates_body (items : list (string * list (string * json))) :
  map_outcome (fun kv => and_then (as_dict (snd kv))
                           (fun meta => Returned (fst kv, meta)))
    (map (fun kv => (fst kv, JObject (snd kv))) items) = Returned items.
Proof.
  induction items as [| [code meta] rest IH]; [reflexivity |].
  cbn [map map_outcome fst snd as_dict and_then]. now rewrite IH.
Qed.

Lemma rates_from_body (items : list (string * list (string * json))) :
  rates_from upper truediv (rates_body items) =
  if negb (py_truthy (usd_value items)) then Returned [("USD"%string, 1%float)]
  else add_rates upper truediv (usd_value items) [] items.
Proof.
  unfold rates_from, rates_body.
  cbn [as_dict and_then dict_get_default dict_lookup String.eqb Ascii.eqb
       Bool.eqb].
  rewrite items_of_rates_body. cbn [and_then].
  unfold usd_value, dict_get, dict_get_default.
  destruct (dict_lookup items "usd"); reflexivity.
Qed.

Lemma get_fx_rates_miss (reply : http_reply) (now : float) (cache : Cache) :
  no_data (data (cache_rates cache)) || stale now (cache_rates cache) = true ->
  get_fx_rates upper truediv reply now cache =
  match reply with
  | HttpFailed => (Raised RequestException, cache)
  | HttpJson body =>
      match rates_from upper truediv body with
      | Raised e => (Raised e, cache)
      | Returned rs =>
          (Returned {| base := "USD"; rates := rs |},
           {| cache_coins := cache_coins cache;
              cache_rates := {| data := Some rs; ts := now |} |})
      end
  end.
Proof. intros Hmiss. unfold get_fx_rates. now rewrite Hmiss. Qed.

(** X17.  Without a usable dollar rate the handler falls back to the single
    rate USD = 1.0: on an empty or stale cache, when the reply is a
    dictionary of rates each of which is a dictionary, and the rates have
    no ["usd"] entry or that entry's ["value"] is missing or falsy (null,
    zero, false, empty), the reply is [{"USD": 1.0}] whatever the other
    rates are, and that is what gets cached. *)
Theorem get_fx_rates_falls_back_to_usd_only
    (items : list (string * list (string * json))) (now : float) (cache : Cache) :
  no_data (data (cache_rates cache)) || stale now (cache_rates cache) = true ->
  py_truthy (usd_value items) = false ->
  get_fx_rates upper truediv (HttpJson (rates_body items)) now cache =
  (Returned {| base := "USD"; rates := [("USD"%string, 1%float)] |},
   {| cache_coins := cache_coins cache;
      cache_rates := {| data := Some [("USD"%string, 1%float)]; ts := now |} |}).
Proof.
  intros Hmiss Husd. rewrite get_fx_rates_miss by assumption.
  now rewrite rates_from_body, Husd.
Qed.

Lemma dict_set_fresh {V : Type} (d : list (string * V)) (key : string) (v : V) :
  ~ In key (map fst d) -> dict_set d key v = d ++ [(key, v)].
Proof.
  induction d as [| [k w] rest IH]; intros Hfresh; [reflexivity |].
  cbn [dict_set app]. cbn [map fst In] in Hfresh.
  destruct (String.eqb_spec k key) as [E | _]; [tauto |].
  rewrite IH; [reflexivity | tauto].
Qed.

Lemma add_rates_distinct_codes (btc_per_usd : json)
    (quot : string * list (string * json) -> float)
    (items : list (string * list (string * json))) (out : list (string * float)) :
  (forall kv, In kv items ->
     is_text (dict_get (snd kv) "type") "fiat" = true ->
     truediv (dict_get_default (snd kv) "value" (JInt 0)) btc_per_usd =
     Returned (quot kv)) ->
  NoDup (map fst out ++ fiat_codes upper items) ->
  add_rates upper truediv btc_per_usd out items =
  Returned (out ++ fiat_rates upper quot items).
Proof.
  revert out. induction items as [| [code meta] rest IH]; intros out Hdiv Hnodup.
  - cbn. now rewrite app_nil_r.
  - cbn [add_rates add_rate]. unfold fiat_rates, fiat_codes in *.
    cbn [filter snd] in *.
    destruct (is_text (dict_get meta "type") "fiat") eqn:Hfiat.
    + pose proof (Hdiv (code, meta) (or_introl eq_refl) Hfiat) as Hq.
      cbn [snd] in Hq. rewrite Hq. cbn [and_then].
      cbn [map fst] in Hnodup.
      pose proof (NoDup_remove_2 _ _ _ Hnodup) as Hfresh.
      rewrite dict_set_fresh
        by (intros Hin; apply Hfresh; apply in_or_app; now left).
      rewrite IH.
      * cbn [map fst]. now rewrite <- app_assoc.
      * intros kv Hkv. apply Hdiv. now right.
      * rewrite map_app. cbn [map fst]. rewrite <- app_assoc. exact Hnodup.
    + cbn [and_then]. apply IH; [| exact Hnodup].
      intros kv Hkv. apply Hdiv. now right.
Qed.

(** X18.  With a usable dollar rate, the rates returned are the fiat entries
    of the reply and nothing else: in the provider's order, each under its
    code upper-cased, each with its value divided by the dollar's value
    (provided the upper-cased fiat codes are distinct and the divisions
    return).  Entries of any other type are dropped. *)
Theorem get_fx_rates_keeps_fiat_entries
    (items : list (string * list (string * json)))
    (quot : string * list (string * json) -> float)
    (now : float) (cache : Cache) :
  no_data (data (cache_rates cache)) || stale now (cache_rates cache) = true ->
  py_truthy (usd_value items) = true ->
  NoDup (fiat_codes upper items) ->
  (forall kv, In kv items ->
     is_text (dict_get (snd kv) "type") "fiat" = true ->
     truediv (dict_get_default (snd kv) "value" (JInt 0)) (usd_value items) =
     Returned (quot kv)) ->
  fst (get_fx_rates upper truediv (HttpJson (rates_body items)) now cache) =
  Returned {| base := "USD"; rates := fiat_rates upper quot items |}.
Proof.
  intros Hmiss Husd Hnodup Hdiv. rewrite get_fx_rates_miss by assumption.
  rewrite rates_from_body, Husd. cbn [negb].
  now rewrite (add_rates_distinct_codes (usd_value items) quot items []).
Qed.

(** X19.  The rates are remembered like the coins: after a call that
    computed a non-empty dictionary of rates at [now1], a call at [now2]
    with [now2 - now1 > CACHE_TTL] false returns the same rates whatever the
    provider replies then, even nothing usable, and leaves the cache
    alone. *)
Theorem get_fx_rates_second_call_served_from_cache
    (body : json) (reply2 : http_reply) (now1 now2 : float) (cache : Cache)
    (rs : list (string * float)) :
  no_data (data (cache_rates cache)) || stale now1 (cache_rates cache) = true ->
  rates_from upper truediv body = Returned rs ->
  no_data (Some rs) = false ->
  PrimFloat.ltb CACHE_TTL (PrimFloat.sub now2 now1) = false ->
  get_fx_rates upper truediv reply2 now2
    (snd (get_fx_rates upper truediv (HttpJson body) now1 cache)) =
  (Returned {| base := "USD"; rates := rs |},
   snd (get_fx_rates upper truediv (HttpJson body) now1 cache)).
Proof.
  intros Hmiss Hrates Hrs Hfresh.
  rewrite (get_fx_rates_miss (HttpJson body) now1 cache Hmiss), Hrates.
  cbn [snd]. unfold get_fx_rates. cbn [cache_rates data].
  rewrite Hrs. unfold stale. cbn [ts]. now rewrite Hfresh.
Qed.

(** X20.  [get_fx_rates] never touches the coin entry of the cache, and a
    call that raises (a failed request, a body that is not the expected
    dictionary of dictionaries, a division that raises) leaves the whole
    cache as it was. *)
Theorem get_fx_rates_keeps_coins_and_is_atomic
    (reply : http_reply) (now : float) (cache : Cache) :
  cache_coins (snd (get_fx_rates upper truediv reply now cache)) =
    cache_coins cache /\
  (forall e, fst (get_fx_rates upper truediv reply now cache) = Raised e ->
             snd (get_fx_rates upper truediv reply now cache) = cache).
Proof.
  unfold get_fx_rates.
  destruct (no_data (data (cache_rates cache)) || stale now (cache_rates cache)).
  - destruct reply as [| body]; [now split |].
    destruct (rates_from upper truediv body); [| now split].
    split; [reflexivity |]. cbn [fst]. discriminate.
  - now split.
Qed.

End Rates.

Lemma get_fx_rates_falls_back_to_usd_only_witness :
  get_fx_rates ascii_upper float_truediv (HttpJson (rates_body rates_without_usd))
    1000%float initial_cache =
  (Returned {| base := "USD"; rates := [("USD"%string, 1%float)] |},
   {| cache_coins := cache_coins initial_cache;
      cache_rates := {| data := Some [("USD"%string, 1%float)]; ts := 1000%float |} |}).
Proof.
  apply (get_fx_rates_falls_back_to_usd_only ascii_upper float_truediv
           rates_without_usd 1000%float initial_cache).
  - reflexivity.
  - reflexivity.
Defined.

Lemma sample_rates_divide (kv : string * list (string * json)) :
  In kv sample_rates ->
  is_text (dict_get (snd kv) "type") "fiat" = true ->
  float_truediv (dict_get_default (snd kv) "value" (JInt 0)) (usd_value sample_rates) =
  Returned (sample_quot kv).
Proof.
  intros [<- | [<- | [<- | []]]] Hfiat; vm_compute in Hfiat |- *;
    (reflexivity || discriminate).
Qed.

Lemma sample_rates_distinct : NoDup (fiat_codes ascii_upper sample_rates).
Proof.
  vm_compute. repeat constructor; cbn; intuition discriminate.
Qed.

Lemma get_fx_rates_keeps_fiat_entries_witness :
  fst (get_fx_rates ascii_upper float_truediv (HttpJson (rates_body sample_rates))
         1000%float initial_cache) =
  Returned {| base := "USD";
              rates := fiat_rates ascii_upper sample_quot sample_rates |}.
Proof.
  apply (get_fx_rates_keeps_fiat_entries ascii_upper float_truediv
           sample_rates sample_quot 1000%float initial_cache).
  - reflexivity.
  - vm_compute. reflexivity.
  - exact sample_rates_distinct.
  - exact sample_rates_divide.
Defined.

(** The sample rates: the dollar at 1.0, the euro at 0.8, no ether. *)
Lemma sample_rates_reply :
  fst (get_fx_rates ascii_upper float_truediv (HttpJson (rates_body sample_rates))
         1000%float initial_cache) =
  Returned {| base := "USD";
              rates := [("USD"%string, 1%float);
                        ("EUR"%string, 0x1.999999999999ap-1%float)] |}.
Proof. vm_compute. reflexivity. Qed.

Lemma get_fx_rates_second_call_served_from_cache_witness :
  get_fx_rates ascii_upper float_truediv HttpFailed 1300%float
    (snd (get_fx_rates ascii_upper float_truediv
            (HttpJson (rates_body sample_rates)) 1000%float initial_cache)) =
  (Returned {| base := "USD";
               rates := [("USD"%string, 1%float);
                         ("EUR"%string, 0x1.999999999999ap-1%float)] |},
   snd (get_fx_rates ascii_upper float_truediv
          (HttpJson (rates_body sample_rates)) 1000%float initial_cache)).
Proof.
  apply (get_fx_rates_second_call_served_from_cache ascii_upper float_truediv
           (rates_body sample_rates) HttpFailed 1000%float 1300%float
           initial_cache).
  - reflexivity.
  - vm_compute. reflexivity.
  - reflexivity.
  - vm_compute. reflexivity.
Defined.

End MarketFacts.

(** * The diagnostics endpoint *)

Module DiagnosticsFacts.

Import Diagnostics.

Local Open Scope string_scope.

(** X22.  Whatever the database module does, the report's ["database_url"]
    and ["database_name"] only say whether the environment variables
    [DATABASE_URL] and [DATABASE_NAME] are set to a non-empty string: the
    values written while probing the database (lines 229-230) are always
    overwritten (lines 245-246).  The backend is always reported running. *)
Theorem test_database_reports_environment_only
    (imported : database_import) (env_url env_name : option string) :
  database_url (test_database imported env_url env_name) = Some (env_report env_url) /\
  database_name (test_database imported env_url env_name) = Some (env_report env_name) /\
  backend (test_database imported env_url env_name) = "✅ Running".
Proof.
  unfold test_database, env_report.
  destruct imported as [| m1 | | [| name | m2] [names | m3]];
    repeat split.
Qed.

(** X23.  The report says ["✅ Connected & Working"] exactly when the import
    gave a database object whose name could be read and whose collections
    could be listed; the report then carries the first ten collection names
    and the status ["Connected"].  In every case at most ten collections are
    reported. *)
Theorem test_database_working_iff_listed
    (imported : database_import) (env_url env_name : option string) :
  (database (test_database imported env_url env_name) = "✅ Connected & Working" <->
   exists name names,
     imported = Db name (Listed names) /\
     (forall message, name <> NameRaised message) /\
     collections (test_database imported env_url env_name) = firstn 10 names /\
     connection_status (test_database imported env_url env_name) = "Connected") /\
  (List.length (collections (test_database imported env_url env_name)) <= 10)%nat.
Proof.
  unfold test_database.
  destruct imported as [| m1 | | [| n | m2] [names | m3]]; cbn -[firstn].
  all: split; [split; [intros H | intros (name & names' & H & Hname & _)] |].
  all: try apply firstn_le_length; try (cbn; lia).
  all: try discriminate H.
  all: try reflexivity.
  all: try (injection H as <-; now destruct (Hname m2)).
  - exists NameAbsent, names. repeat split. discriminate.
  - exists (NameIs n), names. repeat split. discriminate.
Qed.

End DiagnosticsFacts.
